(** * Sample scripts of the script runner

    A shallow embedding of the three console fixtures under
    [scripts/script_runner/examples/sample_scripts]:

    - [demo_output.py]  (module [DemoOutput]),
    - [example_task.py] (module [ExampleTask]),
    - [test_colors.py]  (module [TestColors]).

    The scripts only print, flush, sleep, read the clock and draw random
    numbers.  Each script body is written as a program over these five
    calls; an interpreter runs a program against a [world] that supplies
    the clock readings, the random draws and at most one fault (an
    exception raised by the call it strikes), and returns the trace of
    observable events. *)

From Stdlib Require Import ZArith List String Ascii Bool Lia.
From Stdlib Require Import DecimalString Floats Uint63.
Import ListNotations.

Set Warnings "-inexact-float".

Local Open Scope string_scope.
Local Open Scope Z_scope.

(* ================================================================= *)
(** ** Python values and their text *)

(** [str(n)] for an [int]. *)
Definition str_int (n : Z) : string := NilZero.string_of_int (Z.to_int n).

(** Conversion of an [int] to a [float]; exact for the small integers the
    scripts use (below 2^53). *)
Definition float_of_int (n : Z) : float :=
  if n <? 0 then PrimFloat.opp (PrimFloat.of_uint63 (Uint63.of_Z (- n)))
  else PrimFloat.of_uint63 (Uint63.of_Z n).

(** [a / b] on two [int]s (true division): the quotient as a binary64
    float. *)
Definition true_div (a b : Z) : float :=
  PrimFloat.div (float_of_int a) (float_of_int b).

(** Nearest integer to [n / d], ties to even ([d > 0]). *)
Definition round_half_even (n d : Z) : Z :=
  let q := n / d in
  let r := n mod d in
  match (2 * r) ?= d with
  | Lt => q
  | Gt => q + 1
  | Eq => if Z.even q then q else q + 1
  end.

(** The number of tenths nearest to the magnitude [m * 2^e]. *)
Definition tenths_of (m : positive) (e : Z) : Z :=
  if 0 <=? e then 10 * Z.pos m * 2 ^ e
  else round_half_even (10 * Z.pos m) (2 ^ (- e)).

(** [f"{x:.1f}"]: fixed notation with one digit after the point, the
    exact binary value rounded half to even. *)
Definition format_f1 (x : float) : string :=
  match Prim2SF x with
  | S754_nan => "nan"
  | S754_infinity s => if s then "-inf" else "inf"
  | S754_zero s => if s then "-0.0" else "0.0"
  | S754_finite s m e =>
      let t := tenths_of m e in
      (if s then "-" else "") ++ str_int (t / 10) ++ "." ++ str_int (t mod 10)
  end.

(** [s * n] on a [str]. *)
Definition str_mul (s : string) (n : Z) : string :=
  String.concat "" (repeat s (Z.to_nat n)).

(** [range(a, b)]. *)
Definition range (a b : Z) : list Z :=
  map (fun k => a + Z.of_nat k) (seq 0 (Z.to_nat (b - a))).

(** The text after the last ["/"] of a path ([os.path.basename]). *)
Fixpoint basename_from (acc p : string) : string :=
  match p with
  | EmptyString => acc
  | String c rest =>
      if Ascii.eqb c "/"%char then basename_from rest rest
      else basename_from acc rest
  end.

Definition basename (p : string) : string := basename_from p p.

Definition ESC : string := String "027"%char "".
Definition LF : string := String "010"%char "".
(** U+2713 CHECK MARK, as its three UTF-8 bytes. *)
Definition CHECK : string :=
  String "226"%char (String "156"%char (String "147"%char "")).

(** [s.zfill(width)] on the decimal text of a non-negative [int]. *)
Definition zfill (width : nat) (s : string) : string :=
  String.concat "" (repeat "0" (width - String.length s)) ++ s.

(* ================================================================= *)
(** ** The clock *)

Record datetime : Set := mk_datetime
  { year : Z; month : Z; day : Z; hour : Z; minute : Z; second : Z }.

Definition within (lo hi x : Z) : bool := (lo <=? x) && (x <=? hi).

(** The field ranges of a [datetime] object. *)
Definition valid_datetime (d : datetime) : bool :=
  within 1 9999 (year d) && within 1 12 (month d) && within 1 31 (day d)
  && within 0 23 (hour d) && within 0 59 (minute d) && within 0 59 (second d).

(** [d.strftime("%Y-%m-%d %H:%M:%S")]: the year on four digits and the
    other fields on two, filled with zeros. *)
Definition strftime (d : datetime) : string :=
  zfill 4 (str_int (year d)) ++ "-" ++ zfill 2 (str_int (month d)) ++ "-"
  ++ zfill 2 (str_int (day d)) ++ " " ++ zfill 2 (str_int (hour d)) ++ ":"
  ++ zfill 2 (str_int (minute d)) ++ ":" ++ zfill 2 (str_int (second d)).

(* ================================================================= *)
(** ** Programs over the console *)

Inductive stream : Set := Stdout | Stderr.

Definition stream_eqb (a b : stream) : bool :=
  match a, b with
  | Stdout, Stdout | Stderr, Stderr => true
  | _, _ => false
  end.

(** What a run leaves behind, in order.  [Wrote f text] is one call
    [print(text, file=f)]: the bytes of [text] and a line feed. *)
Inductive event : Set :=
| Wrote (f : stream) (text : string)
| Flushed (f : stream)
| Slept (secs : float).

(** The two classes of exception the scripts tell apart. *)
Inductive exn : Set :=
| KeyboardInterrupt
| Exception (text : string).

(** The calls a script makes to the outside. *)
Inductive call : Set :=
| c_print (f : stream) (text : string)
| c_flush (f : stream)
| c_sleep (secs : float)
| c_now
| c_random.

Definition answer (c : call) : Set :=
  match c with
  | c_now => datetime
  | c_random => float
  | _ => unit
  end.

Inductive prog (A : Type) : Type :=
| Ret (a : A)
| Call (c : call) (k : answer c -> prog A).

Arguments Ret {A} a.
Arguments Call {A} c k.

Fixpoint bind {A B : Type} (p : prog A) (q : A -> prog B) : prog B :=
  match p with
  | Ret a => q a
  | Call c k => Call c (fun r => bind (k r) q)
  end.

Declare Scope prog_scope.
Delimit Scope prog_scope with prog.
Notation "x <- p ;; q" := (bind p (fun x => q))
  (at level 61, p at next level, right associativity) : prog_scope.
Notation "p ;; q" := (bind p (fun _ => q))
  (at level 61, right associativity) : prog_scope.
Local Open Scope prog_scope.

Definition print (text : string) (f : stream) : prog unit :=
  Call (c_print f text) Ret.
Definition flush (f : stream) : prog unit := Call (c_flush f) Ret.
Definition time_sleep (secs : float) : prog unit := Call (c_sleep secs) Ret.
Definition datetime_now : prog datetime := Call c_now Ret.
Definition random_random : prog float := Call c_random Ret.

(** [for x in xs: body]. *)
Fixpoint for_each {X : Type} (xs : list X) (body : X -> prog unit) : prog unit :=
  match xs with
  | [] => Ret tt
  | x :: rest => body x ;; for_each rest body
  end.

(** [if c: body] with no [else]. *)
Definition when (c : bool) (body : prog unit) : prog unit :=
  if c then body else Ret tt.

(* ================================================================= *)
(** ** Running a program *)

(** What the process finds around it: the path it was started from, its
    process id and the interpreter's version text. *)
Record host : Set := mk_host
  { script_file : string; getpid : Z; sys_version : string }.

(** What happens around a run: the successive clock readings, the
    successive random draws, and at most one fault, given as the number of
    the call it strikes (counting every call from 0) with the exception that
    call raises instead of taking effect. *)
Record world : Set := mk_world
  { clock : nat -> datetime;
    draws : nat -> float;
    fault : option (nat * exn) }.

Record counters : Set := mk_counters
  { n_calls : nat; n_now : nat; n_random : nat }.

Definition start : counters := mk_counters 0 0 0.

Definition strikes (w : world) (s : counters) : option exn :=
  match fault w with
  | Some (at_call, e) => if Nat.eqb at_call (n_calls s) then Some e else None
  | None => None
  end.

Definition called (s : counters) : counters :=
  mk_counters (S (n_calls s)) (n_now s) (n_random s).

(** The effect of one call that is not struck: its answer, the events it
    leaves and the counters after it. *)
Definition perform (w : world) (c : call) (s : counters)
  : answer c * (list event * counters) :=
  match c return answer c * (list event * counters) with
  | c_print f text => (tt, ([Wrote f text], called s))
  | c_flush f => (tt, ([Flushed f], called s))
  | c_sleep secs => (tt, ([Slept secs], called s))
  | c_now =>
      (clock w (n_now s),
       ([], mk_counters (S (n_calls s)) (S (n_now s)) (n_random s)))
  | c_random =>
      (draws w (n_random s),
       ([], mk_counters (S (n_calls s)) (n_now s) (S (n_random s))))
  end.

Definition outcome (A : Type) : Type := (list event * counters * (exn + A))%type.

Fixpoint exec {A : Type} (w : world) (p : prog A) (s : counters) : outcome A :=
  match p with
  | Ret a => ([], s, inr a)
  | Call c k =>
      match strikes w s with
      | Some e => ([], called s, inl e)
      | None =>
          let '(r, (evs, s1)) := perform w c s in
          let '(t, s2, res) := exec w (k r) s1 in
          ((evs ++ t)%list, s2, res)
      end
  end.

Definition trace {A : Type} (o : outcome A) : list event := fst (fst o).
Definition result {A : Type} (o : outcome A) : exn + A := snd o.
Definition final {A : Type} (o : outcome A) : counters := snd (fst o).

(** [try: body except ...: handler], where [handler e] is [None] for an
    exception no clause catches. *)
Definition try_except {A : Type} (body : counters -> outcome A)
    (handler : exn -> option (counters -> outcome A)) (s : counters) : outcome A :=
  let '(t, s1, res) := body s in
  match res with
  | inr a => (t, s1, inr a)
  | inl e =>
      match handler e with
      | Some h => let '(t', s2, res') := h s1 in ((t ++ t')%list, s2, res')
      | None => (t, s1, inl e)
      end
  end.

(** How the process ends. *)
Inductive status : Set :=
| Exit (code : Z)
| Uncaught (e : exn).

(* ================================================================= *)
(** ** Observations on a trace *)

(** The texts printed to a stream, one per [print] call. *)
Definition printed (f : stream) (t : list event) : list string :=
  flat_map (fun ev => match ev with
                      | Wrote g text => if stream_eqb f g then [text] else []
                      | _ => []
                      end) t.

(** The durations slept, in order. *)
Definition sleeps (t : list event) : list float :=
  flat_map (fun ev => match ev with Slept d => [d] | _ => [] end) t.

(** The bytes a stream receives. *)
Definition bytes_of (f : stream) (t : list event) : string :=
  String.concat "" (map (fun text => text ++ LF) (printed f t)).

(** A text cut at its line feeds; a final line feed ends the last line. *)
Fixpoint lines_from (cur : string) (s : string) : list string :=
  match s with
  | EmptyString => match cur with EmptyString => [] | _ => [cur] end
  | String c rest =>
      if Ascii.eqb c "010"%char then cur :: lines_from "" rest
      else lines_from (cur ++ String c "") rest
  end.

Definition lines (s : string) : list string := lines_from "" s.

(** [s.startswith(p)]. *)
Fixpoint starts_with (p s : string) : bool :=
  match p, s with
  | EmptyString, _ => true
  | String a p', String b s' => Ascii.eqb a b && starts_with p' s'
  | String _ _, EmptyString => false
  end.

(** [needle in hay]. *)
Fixpoint contains (needle hay : string) : bool :=
  starts_with needle hay
  || match hay with
     | EmptyString => false
     | String _ rest => contains needle rest
     end.

(* ================================================================= *)
(** ** demo_output.py *)

Module DemoOutput.

Definition main (h : host) : prog unit :=
  print "=== Script Runner Demo ===" Stdout ;;
  print ("Script: " ++ basename (script_file h)) Stdout ;;
  print ("PID: " ++ str_int (getpid h)) Stdout ;;
  print "" Stdout ;;
  print "Starting demonstration..." Stdout ;;
  time_sleep (float_of_int 1) ;;
  for_each (range 1 11) (fun i =>
    print ("Progress: " ++ str_int i ++ "/10 (" ++ str_int (i * 10) ++ "%)") Stdout ;;
    flush Stdout ;;
    time_sleep 0.5) ;;
  print "" Stdout ;;
  print "Testing different output types:" Stdout ;;
  print "This goes to stdout" Stdout ;;
  print "This goes to stderr" Stderr ;;
  flush Stderr ;;
  print (LF ++ "Generating long output:") Stdout ;;
  for_each (range 0 20) (fun i =>
    print ("Line " ++ str_int (i + 1)
           ++ ": Lorem ipsum dolor sit amet, consectetur adipiscing elit.") Stdout ;;
    when (i mod 5 =? 4) (time_sleep 0.3)) ;;
  print (LF ++ CHECK ++ " Demo completed successfully!") Stdout ;;
  print "Total execution time: ~8 seconds" Stdout.

(** [if __name__ == "__main__": main()]: the process ends with status 0
    when [main] returns, and with the exception when it does not. *)
Definition script (h : host) (w : world) : list event * status :=
  let '(t, _, res) := exec w (main h) start in
  match res with
  | inr _ => (t, Exit 0)
  | inl e => (t, Uncaught e)
  end.

End DemoOutput.

(* ================================================================= *)
(** ** example_task.py *)

Module ExampleTask.

(** [log_message(message, level="INFO")]; [level] is [None] where the
    caller leaves the default. *)
Definition log_message (message : string) (level : option string) : prog unit :=
  let level := match level with Some l => l | None => "INFO" end in
  now <- datetime_now ;;
  let timestamp := strftime now in
  print ("[" ++ timestamp ++ "] " ++ level ++ ": " ++ message) Stdout ;;
  flush Stdout.

Definition simulate_work (duration : Z) (task_name : string) : prog unit :=
  log_message ("Starting " ++ task_name) None ;;
  let steps := 10 in
  let step_duration := true_div duration steps in
  for_each (range 0 (steps + 1)) (fun i =>
    let progress := PrimFloat.mul (true_div i steps) (float_of_int 100) in
    log_message (task_name ++ " progress: " ++ format_f1 progress ++ "%") None ;;
    when (i <? steps)
      (time_sleep step_duration ;;
       r <- random_random ;;
       when (PrimFloat.ltb r 0.1)
         (log_message ("Minor issue in " ++ task_name
                       ++ " (step " ++ str_int (i + 1) ++ ")") (Some "WARNING")))) ;;
  log_message ("Completed " ++ task_name) None.

Definition tasks : list (string * Z) :=
  [("Data Processing", 3); ("File Analysis", 2); ("Report Generation", 4)].

(** The body of the [try] statement of [main]. *)
Definition main_try (h : host) : prog Z :=
  log_message "Python example script starting" None ;;
  log_message ("Python version: " ++ sys_version h) None ;;
  for_each tasks (fun '(task_name, duration) =>
    simulate_work duration task_name ;;
    time_sleep 0.5) ;;
  log_message "All tasks completed successfully" None ;;
  log_message "Summary: 3 tasks executed, 0 errors" None ;;
  Ret 0.

(** The two [except] clauses of [main]. *)
Definition main_except (e : exn) : prog Z :=
  match e with
  | KeyboardInterrupt =>
      log_message "Script interrupted by user" (Some "WARNING") ;;
      Ret 130
  | Exception text =>
      log_message ("Unexpected error: " ++ text) (Some "ERROR") ;;
      Ret 1
  end.

Definition main (h : host) (w : world) : outcome Z :=
  try_except (exec w (main_try h)) (fun e => Some (exec w (main_except e))) start.

(** [exit_code = main(); sys.exit(exit_code)]. *)
Definition script (h : host) (w : world) : list event * status :=
  let '(t, _, res) := main h w in
  match res with
  | inr exit_code => (t, Exit exit_code)
  | inl e => (t, Uncaught e)
  end.

End ExampleTask.

(* ================================================================= *)
(** ** test_colors.py *)

Module TestColors.

Definition print_colored (text color_code : string) : prog unit :=
  print (ESC ++ "[" ++ color_code ++ "m" ++ text ++ ESC ++ "[0m") Stdout.

Definition colors : list (string * string) :=
  [("Red", "31"); ("Green", "32"); ("Yellow", "33"); ("Blue", "34");
   ("Magenta", "35"); ("Cyan", "36"); ("White", "37")].

Definition bright_colors : list (string * string) :=
  [("Bright Red", "91"); ("Bright Green", "92"); ("Bright Yellow", "93");
   ("Bright Blue", "94"); ("Bright Magenta", "95"); ("Bright Cyan", "96");
   ("Bright White", "97")].

Definition log_entries : list (string * string * string) :=
  [("INFO", "32", "Application started successfully");
   ("DEBUG", "36", "Loading configuration file");
   ("WARNING", "33", "Configuration file not found, using defaults");
   ("ERROR", "31", "Failed to connect to database");
   ("INFO", "32", "Retrying connection...");
   ("SUCCESS", "92", "Connected to database successfully")].

Definition main : prog unit :=
  print "Python ANSI Color Test" Stdout ;;
  print (str_mul "=" 25) Stdout ;;
  for_each colors (fun '(name, code) =>
    print_colored (name ++ " text") code ;;
    time_sleep 0.5) ;;
  print (LF ++ "Bright colors:") Stdout ;;
  for_each bright_colors (fun '(name, code) =>
    print_colored (name ++ " text") code ;;
    time_sleep 0.5) ;;
  print (LF ++ "Real-time log simulation:") Stdout ;;
  for_each log_entries (fun '(level, color, message) =>
    print_colored ("[" ++ level ++ "]") color ;;
    print (" " ++ message) Stdout ;;
    time_sleep (float_of_int 1)) ;;
  print (LF ++ "Color test completed!") Stdout.

(** [if __name__ == "__main__": main()]. *)
Definition script (w : world) : list event * status :=
  let '(t, _, res) := exec w main start in
  match res with
  | inr _ => (t, Exit 0)
  | inl e => (t, Uncaught e)
  end.

End TestColors.

(* ================================================================= *)
(** ** Reading a log back *)

(** These definitions observe what the task simulator printed: they cut a
    printed text into the time stamp, the level and the message. *)

Fixpoint take (n : nat) (s : string) : string :=
  match n, s with
  | S n', String c rest => String c (take n' rest)
  | _, _ => EmptyString
  end.

Fixpoint drop (n : nat) (s : string) : string :=
  match n, s with
  | S n', String _ rest => drop n' rest
  | _, _ => s
  end.

Definition is_digit (c : ascii) : bool :=
  (48 <=? nat_of_ascii c)%nat && (nat_of_ascii c <=? 57)%nat.

(** [shaped pat s]: [s] has the length of [pat], a digit wherever [pat]
    has ["d"] and the character of [pat] elsewhere. *)
Fixpoint shaped (pat s : string) : bool :=
  match pat, s with
  | EmptyString, EmptyString => true
  | String p pat', String c s' =>
      (if Ascii.eqb p "d"%char then is_digit c else Ascii.eqb p c)
      && shaped pat' s'
  | _, _ => false
  end.

(** The shape [YYYY-MM-DD HH:MM:SS]. *)
Definition stamp_ok (s : string) : bool := shaped "dddd-dd-dd dd:dd:dd" s.

(** The text before the first [": "] and the text after it. *)
Fixpoint cut_level (s : string) : option (string * string) :=
  match s with
  | EmptyString => None
  | String c rest =>
      if starts_with ": " s then Some (EmptyString, drop 2 s)
      else match cut_level rest with
           | Some (lvl, msg) => Some (String c lvl, msg)
           | None => None
           end
  end.

Record log_line : Set := mk_log_line
  { stamp : string; level : string; message : string }.

(** A text of the form ["[" stamp "] " level ": " message], with a stamp
    of the shape above. *)
Definition parse_log (text : string) : option log_line :=
  match text with
  | String c rest =>
      if Ascii.eqb c "["%char && stamp_ok (take 19 rest)
         && starts_with "] " (drop 19 rest)
      then match cut_level (drop 2 (drop 19 rest)) with
           | Some (lvl, msg) => Some (mk_log_line (take 19 rest) lvl msg)
           | None => None
           end
      else None
  | EmptyString => None
  end.

(** A trace as a reader of the console sees it: log lines without their
    time stamp, other texts as they are, pauses; flushes leave no mark. *)
Inductive item : Set :=
| Line (lvl msg : string)
| Raw (f : stream) (text : string)
| Pause (secs : float).

Definition view (ev : event) : list item :=
  match ev with
  | Wrote Stdout text =>
      match parse_log text with
      | Some l => [Line (level l) (message l)]
      | None => [Raw Stdout text]
      end
  | Wrote Stderr text => [Raw Stderr text]
  | Flushed _ => []
  | Slept secs => [Pause secs]
  end.

Definition journal (t : list event) : list item := flat_map view t.

Definition is_warning (i : item) : bool :=
  match i with
  | Line lvl _ => String.eqb lvl "WARNING"
  | _ => false
  end.

(** The journal aside from its WARNING lines. *)
Definition skeleton (t : list event) : list item :=
  filter (fun i => negb (is_warning i)) (journal t).

(** The messages of the lines of one level, in order. *)
Definition messages_at (lvl : string) (t : list event) : list string :=
  flat_map (fun i => match i with
                     | Line l msg => if String.eqb l lvl then [msg] else []
                     | _ => []
                     end) (journal t).

(** Every [print] is followed at once by a flush of its stream;
    [pending] is the stream of a write not yet flushed. *)
Fixpoint flushed_at_once (pending : option stream) (t : list event) : bool :=
  match t with
  | [] => match pending with None => true | Some _ => false end
  | ev :: rest =>
      match pending, ev with
      | Some f, Flushed g => stream_eqb f g && flushed_at_once None rest
      | Some _, _ => false
      | None, Wrote f _ => flushed_at_once (Some f) rest
      | None, _ => flushed_at_once None rest
      end
  end.

(** For each [print(text, file=f)] in the trace, the event that comes
    next ([None] at the end of the trace). *)
Fixpoint next_after (f : stream) (text : string) (t : list event)
  : list (option event) :=
  match t with
  | [] => []
  | Wrote g text' :: rest =>
      if stream_eqb f g && String.eqb text text'
      then List.hd_error rest :: next_after f text rest
      else next_after f text rest
  | _ :: rest => next_after f text rest
  end.

(** The same world with no fault. *)
Definition calm (w : world) : world := mk_world (clock w) (draws w) None.

(** A clock that only gives dates and times that exist. *)
Definition clock_valid (w : world) : Prop :=
  forall n, valid_datetime (clock w n) = true.

(** The lines of a text that come after the first line equal to [mark]. *)
Fixpoint lines_after (mark : string) (ls : list string) : list string :=
  match ls with
  | [] => []
  | l :: rest => if String.eqb l mark then rest else lines_after mark rest
  end.

(** [x] put between the neighbours of a list. *)
Fixpoint intersperse {X : Type} (x : X) (xs : list X) : list X :=
  match xs with
  | [] => []
  | [y] => [y]
  | y :: rest => y :: x :: intersperse x rest
  end.

(* ================================================================= *)
(** * Vocabulary of the statements *)

(** The three levels the task simulator logs at. *)
Definition known_level (lvl : string) : Prop :=
  lvl = "INFO" \/ lvl = "WARNING" \/ lvl = "ERROR".

(** The text [log_message] prints for a clock reading. *)
Definition log_text (d : datetime) (lvl msg : string) : string :=
  "[" ++ strftime d ++ "] " ++ lvl ++ ": " ++ msg.

(** The level [log_message] logs at. *)
Definition level_or_default (lvl : option string) : string :=
  match lvl with Some l => l | None => "INFO" end.

(** One turn of the loop of [simulate_work], under a name of its own so
    that lemmas can speak of it ([simulate_work_loop] below shows that the
    loop of [simulate_work] is made of these turns). *)
Definition work_step (duration : Z) (task_name : string) (i : Z) : prog unit :=
  (ExampleTask.log_message
     (task_name ++ " progress: "
      ++ format_f1 (PrimFloat.mul (true_div i 10) (float_of_int 100)) ++ "%") None ;;
   when (i <? 10)
     (time_sleep (true_div duration 10) ;;
      r <- random_random ;;
      when (PrimFloat.ltb r 0.1)
        (ExampleTask.log_message ("Minor issue in " ++ task_name
                      ++ " (step " ++ str_int (i + 1) ++ ")") (Some "WARNING"))))%prog.

(** What one turn leaves in the journal, given the draw of that turn. *)
Definition step_items (duration : Z) (task_name : string) (i : Z) (r : float)
  : list item :=
  Line "INFO" (task_name ++ " progress: "
               ++ format_f1 (PrimFloat.mul (true_div i 10) (float_of_int 100)) ++ "%")
  :: (if i <? 10
      then Pause (true_div duration 10)
           :: (if PrimFloat.ltb r 0.1
               then [Line "WARNING" ("Minor issue in " ++ task_name
                                     ++ " (step " ++ str_int (i + 1) ++ ")")]
               else [])
      else []).

(** The journal of the turns [xs], the first of which takes draw [k]. *)
Fixpoint loop_items (w : world) (duration : Z) (task_name : string) (xs : list Z) (k : nat)
  : list item :=
  match xs with
  | [] => []
  | i :: rest =>
      (step_items duration task_name i (draws w k)
       ++ loop_items w duration task_name rest (if i <? 10 then S k else k))%list
  end.

(** The number of the next draw after the turns [xs]. *)
Fixpoint loop_draws (xs : list Z) (k : nat) : nat :=
  match xs with
  | [] => k
  | i :: rest => loop_draws rest (if i <? 10 then S k else k)
  end.

(** The percentages a task reports. *)
Definition percents : list string :=
  ["0.0"; "10.0"; "20.0"; "30.0"; "40.0"; "50.0"; "60.0"; "70.0"; "80.0";
   "90.0"; "100.0"].

(** The report of one task aside from its warnings: the start line, the
    eleven progress lines with a pause between neighbours, the end line. *)
Definition progress_report (task_name : string) (duration : Z) : list item :=
  (Line "INFO" ("Starting " ++ task_name)
   :: intersperse (Pause (true_div duration 10))
        (map (fun pct => Line "INFO" (task_name ++ " progress: " ++ pct ++ "%"))
           percents)
   ++ [Line "INFO" ("Completed " ++ task_name)])%list.

(** The warning of step [k + 1], present when the draw [r] of that step
    is below 0.1. *)
Definition warning_of (task_name : string) (k : nat) (r : float) : list string :=
  if PrimFloat.ltb r 0.1
  then ["Minor issue in " ++ task_name ++ " (step " ++ str_int (Z.of_nat k + 1) ++ ")"]
  else [].

(** The same warning as a line of the journal. *)
Definition warning_line (task_name : string) (k : nat) (r : float) : list item :=
  if PrimFloat.ltb r 0.1
  then [Line "WARNING"
          ("Minor issue in " ++ task_name ++ " (step " ++ str_int (Z.of_nat k + 1) ++ ")")]
  else [].

(** What the task simulator prints aside from time stamps and warnings,
    given the version text of the interpreter. *)
Definition main_report (version : string) : list item :=
  ([Line "INFO" "Python example script starting";
    Line "INFO" ("Python version: " ++ version)]
   ++ flat_map (fun '(task_name, duration) =>
                  progress_report task_name duration ++ [Pause 0.5%float])
        ExampleTask.tasks
   ++ [Line "INFO" "All tasks completed successfully";
       Line "INFO" "Summary: 3 tasks executed, 0 errors"])%list.

(** An answer the outside can give to a call: the clock only gives dates
    and times that exist. *)
Definition answer_ok (c : call) : answer c -> Prop :=
  match c as c0 return answer c0 -> Prop with
  | c_now => fun d => valid_datetime d = true
  | _ => fun _ => True
  end.

(** Every [print] a program can reach satisfies [R]. *)
Fixpoint prints_all (R : stream -> string -> Prop) {A : Type} (p : prog A) : Prop :=
  match p with
  | Ret _ => True
  | Call c k =>
      match c with c_print f text => R f text | _ => True end
      /\ forall r, answer_ok c r -> prints_all R (k r)
  end.

Definition event_ok (R : stream -> string -> Prop) (ev : event) : Prop :=
  match ev with
  | Wrote f text => R f text
  | _ => True
  end.

(** Every value a program can return satisfies [P]. *)
Fixpoint returns_all {A : Type} (P : A -> Prop) (p : prog A) : Prop :=
  match p with
  | Ret a => P a
  | Call c k => forall r, returns_all P (k r)
  end.

(** Every [print] of a program is followed at once by a flush of the
    same stream. *)
Inductive tidy {A : Type} : prog A -> Prop :=
| tidy_ret (a : A) : tidy (Ret a)
| tidy_print (f : stream) (text : string) (k k' : unit -> prog A) :
    k tt = Call (c_flush f) k' -> tidy (k' tt) -> tidy (Call (c_print f text) k)
| tidy_flush (f : stream) (k : unit -> prog A) :
    tidy (k tt) -> tidy (Call (c_flush f) k)
| tidy_sleep (secs : float) (k : unit -> prog A) :
    tidy (k tt) -> tidy (Call (c_sleep secs) k)
| tidy_now (k : datetime -> prog A) :
    (forall d, tidy (k d)) -> tidy (Call c_now k)
| tidy_random (k : float -> prog A) :
    (forall r, tidy (k r)) -> tidy (Call c_random k).

(** A line of the [try] body: at level INFO, or a warning about a minor
    issue. *)
Definition body_line (lvl msg : string) : Prop :=
  lvl = "INFO" \/ (lvl = "WARNING" /\ starts_with "Minor issue in " msg = true).

(** A text that [log_message] printed on the standard output, with a
    level and message that satisfy [allowed]. *)
Definition logged (allowed : string -> string -> Prop) (f : stream) (text : string)
  : Prop :=
  f = Stdout
  /\ exists d lvl msg,
       valid_datetime d = true /\ allowed lvl msg /\ text = log_text d lvl msg.


(** A printed text reads back as a log line of a known level. *)
Definition well_formed (text : string) : bool :=
  match parse_log text with
  | Some l => existsb (String.eqb (level l)) ["INFO"; "WARNING"; "ERROR"]
  | None => false
  end.

(* ================================================================= *)
(** * Expected output of the demo output generator and the color probe *)

(** The lines of the demo output generator, as its contract words them. *)
Definition demo_banner (h : host) : list event :=
  [Wrote Stdout "=== Script Runner Demo ===";
   Wrote Stdout ("Script: " ++ basename (script_file h));
   Wrote Stdout ("PID: " ++ str_int (getpid h));
   Wrote Stdout "";
   Wrote Stdout "Starting demonstration...";
   Slept 1%float].

Definition progress_line (i : Z) : string :=
  "Progress: " ++ str_int i ++ "/10 (" ++ str_int (10 * i) ++ "%)".

Definition demo_progress : list event :=
  flat_map (fun i => [Wrote Stdout (progress_line i); Flushed Stdout; Slept 0.5%float])
    [1; 2; 3; 4; 5; 6; 7; 8; 9; 10].

Definition demo_channels : list event :=
  [Wrote Stdout "This goes to stdout";
   Wrote Stderr "This goes to stderr";
   Flushed Stderr].

Definition lorem_line (n : Z) : string :=
  "Line " ++ str_int n ++ ": Lorem ipsum dolor sit amet, consectetur adipiscing elit.".

(** Twenty numbered lines, a delay after every fifth. *)
Definition demo_lorem : list event :=
  flat_map (fun n => Wrote Stdout (lorem_line n)
                     :: (if n mod 5 =? 0 then [Slept 0.3%float] else []))
    (range 1 21).

Definition demo_completion : list event :=
  [Wrote Stdout (LF ++ CHECK ++ " Demo completed successfully!");
   Wrote Stdout "Total execution time: ~8 seconds"].

Definition demo_expected (h : host) : list event :=
  (demo_banner h ++ demo_progress
   ++ [Wrote Stdout ""; Wrote Stdout "Testing different output types:"]
   ++ demo_channels
   ++ [Wrote Stdout (LF ++ "Generating long output:")]
   ++ demo_lorem ++ demo_completion)%list.

(** A trace with the process id blanked out of the [PID] line. *)
Definition aside_from_pid (t : list event) : list event :=
  map (fun ev => match ev with
                 | Wrote f text =>
                     if starts_with "PID: " text then Wrote f "PID: " else ev
                 | _ => ev
                 end) t.

(** [print(text, file=f)] is followed at once by a flush of [f], every
    time it occurs, and it occurs. *)
Definition line_flushed_at_once (f : stream) (text : string) (t : list event) : bool :=
  match next_after f text t with
  | [] => false
  | nexts => forallb (fun nx => match nx with
                                | Some (Flushed g) => stream_eqb f g
                                | _ => false
                                end) nexts
  end.

(** The events that come after the first [print(text, file=f)]. *)
Fixpoint events_after (f : stream) (text : string) (t : list event) : list event :=
  match t with
  | [] => []
  | Wrote g text' :: rest =>
      if stream_eqb f g && String.eqb text text' then rest
      else events_after f text rest
  | _ :: rest => events_after f text rest
  end.

(** The streams flushed, in order. *)
Definition flushes (t : list event) : list stream :=
  flat_map (fun ev => match ev with Flushed f => [f] | _ => [] end) t.

(** [text] wrapped in the escape sequence of a numeric SGR parameter and
    followed by the reset sequence. *)
Definition colored (code : Z) (text : string) : string :=
  ESC ++ "[" ++ str_int code ++ "m" ++ text ++ ESC ++ "[0m".

Definition color_names : list string :=
  ["Red"; "Green"; "Yellow"; "Blue"; "Magenta"; "Cyan"; "White"].

(** The seven standard colors, parameters 31 to 37. *)
Definition standard_lines : list string :=
  map (fun '(name, code) => colored code (name ++ " text"))
    (combine color_names (range 31 38)).

(** The seven bright colors, parameters 91 to 97. *)
Definition bright_lines : list string :=
  map (fun '(name, code) => colored code ("Bright " ++ name ++ " text"))
    (combine color_names (range 91 98)).

(** The six entries of the simulated log stream: level, color parameter,
    message. *)
Definition log_stream : list (string * Z * string) :=
  [("INFO", 32, "Application started successfully");
   ("DEBUG", 36, "Loading configuration file");
   ("WARNING", 33, "Configuration file not found, using defaults");
   ("ERROR", 31, "Failed to connect to database");
   ("INFO", 32, "Retrying connection...");
   ("SUCCESS", 92, "Connected to database successfully")].

Definition colors_expected : list event :=
  ([Wrote Stdout "Python ANSI Color Test";
    Wrote Stdout "========================="]
   ++ flat_map (fun l => [Wrote Stdout l; Slept 0.5%float]) standard_lines
   ++ [Wrote Stdout (LF ++ "Bright colors:")]
   ++ flat_map (fun l => [Wrote Stdout l; Slept 0.5%float]) bright_lines
   ++ [Wrote Stdout (LF ++ "Real-time log simulation:")]
   ++ flat_map (fun '(lvl, code, msg) =>
                  [Wrote Stdout (colored code ("[" ++ lvl ++ "]"));
                   Wrote Stdout (" " ++ msg);
                   Slept 1%float]) log_stream
   ++ [Wrote Stdout (LF ++ "Color test completed!")])%list.

(** [s.endswith(suffix)]. *)
Definition ends_with (suffix s : string) : bool :=
  String.eqb (drop (String.length s - String.length suffix) s) suffix.

(** A host, a clock, draws and worlds to try the scripts on. *)
Definition sample_host : host :=
  mk_host "/srv/runner/scripts/demo_output.py" 4242
    "3.12.3 (main, Feb  4 2025, 14:48:35) [GCC 13.3.0]".

Definition sample_clock (n : nat) : datetime := mk_datetime 2025 3 9 14 7 5.

Definition sample_draws (n : nat) : float :=
  if Nat.eqb n 3 then 0.05%float else 0.5%float.

Definition calm_world : world := mk_world sample_clock sample_draws None.


(** An error raised by the [print] of the 90% line of the first task
    (call 58). *)
Definition failing_world : world :=
  mk_world sample_clock sample_draws
    (Some (58%nat, Exception "[Errno 28] No space left on device")).

(** The same script on the same machine under another process id, other
    clock readings and other draws. *)
Definition second_host : host :=
  mk_host (script_file sample_host) 4711 (sys_version sample_host).

Definition second_world : world :=
  mk_world (fun _ => mk_datetime 2025 3 10 9 30 0) (fun _ => 0.03125%float) None.

(** A host whose version text spans two lines, as interpreters before
    3.10 report it. *)
Definition legacy_host : host :=
  mk_host "/srv/runner/scripts/example_task.py" 4242
    ("3.9.2 (default, Feb 28 2021, 17:03:44) " ++ LF ++ "[GCC 10.2.1 20210110]").

(** The text before the first occurrence of the character [c] and the
    text after it. *)
Fixpoint cut_char (c : ascii) (s : string) : option (string * string) :=
  match s with
  | EmptyString => None
  | String a rest =>
      if Ascii.eqb a c then Some (EmptyString, rest)
      else match cut_char c rest with
           | Some (before, after) => Some (String a before, after)
           | None => None
           end
  end.

(** A colored segment read back: the parameter between [ESC[] and the
    first [m], and the text up to the reset sequence that ends the
    segment. *)
Definition read_colored (s : string) : option (string * string) :=
  if starts_with (ESC ++ "[") s
  then match cut_char "m"%char (drop 2 s) with
       | Some (code, body) =>
           if ends_with (ESC ++ "[0m") body
           then Some (code, take (String.length body - 4) body)
           else None
       | None => None
       end
  else None.

(** A printed text counts as a line of output on stdout. *)
Definition is_output (i : item) : bool :=
  match i with
  | Line _ _ | Raw Stdout _ => true
  | _ => false
  end.

(* ================================================================= *)
(** * Runs under any number of faults *)

(** [exec_under fs w p s] runs [p] as [exec w p s] does, but the faults
    come from the schedule [fs]: call number [n] raises [e] instead of
    taking effect when [fs n = Some e], for every [n].  The clock and the
    draws are those of [w]; the one fault of [w] is left aside. *)
Fixpoint exec_under {A : Type} (fs : nat -> option exn) (w : world)
    (p : prog A) (s : counters) : outcome A :=
  match p with
  | Ret a => ([], s, inr a)
  | Call c k =>
      match fs (n_calls s) with
      | Some e => ([], called s, inl e)
      | None =>
          let '(r, (evs, s1)) := perform w c s in
          let '(t, s2, res) := exec_under fs w (k r) s1 in
          ((evs ++ t)%list, s2, res)
      end
  end.

(** The schedule of a world: its one fault, if it has one. *)
Definition schedule_of (w : world) (n : nat) : option exn :=
  match fault w with
  | Some (at_call, e) => if Nat.eqb at_call n then Some e else None
  | None => None
  end.

(** The first fault among the [count] calls that start at call [from],
    with its place among them. *)
Fixpoint first_struck (fs : nat -> option exn) (from count : nat)
  : option (nat * exn) :=
  match count with
  | O => None
  | S count' =>
      match fs from with
      | Some e => Some (O, e)
      | None =>
          match first_struck fs (S from) count' with
          | Some (i, e) => Some (S i, e)
          | None => None
          end
      end
  end.

(** example_task.py under a schedule of faults: the handlers of [main]
    make calls of their own, which the schedule can strike too. *)
Module Disturbed.

Definition main (h : host) (fs : nat -> option exn) (w : world) : outcome Z :=
  try_except (exec_under fs w (ExampleTask.main_try h))
    (fun e => Some (exec_under fs w (ExampleTask.main_except e))) start.

(** [exit_code = main(); sys.exit(exit_code)]. *)
Definition script (h : host) (fs : nat -> option exn) (w : world)
  : list event * status :=
  let '(t, _, res) := main h fs w in
  match res with
  | inr exit_code => (t, Exit exit_code)
  | inl e => (t, Uncaught e)
  end.

End Disturbed.

(** No character of the text is a line feed. *)
Fixpoint lf_free (s : string) : bool :=
  match s with
  | EmptyString => true
  | String c rest => negb (Ascii.eqb c "010"%char) && lf_free rest
  end.

(** The last line that stdout received. *)
Definition last_line (t : list event) : string :=
  last (lines (bytes_of Stdout t)) "".

(** The exit code as the last line on stdout tells it: 0 after the summary
    line, 130 after the interruption warning, 1 after an error line. *)
Definition exit_code_of_log (t : list event) : option Z :=
  match parse_log (last_line t) with
  | Some l =>
      if String.eqb (level l) "INFO"
         && String.eqb (message l) "Summary: 3 tasks executed, 0 errors"
      then Some 0
      else if String.eqb (level l) "WARNING"
              && String.eqb (message l) "Script interrupted by user"
      then Some 130
      else if String.eqb (level l) "ERROR"
              && starts_with "Unexpected error: " (message l)
      then Some 1
      else None
  | None => None
  end.





(** A standard output that is full: the flush of the version line (call
    5) fails, and so does the flush of the handler (call 8). *)
Definition stdout_full (n : nat) : option exn :=
  if Nat.eqb n 5 || Nat.eqb n 8
  then Some (Exception "[Errno 28] No space left on device")
  else None.



(** An error at the same call whose text spans two lines. *)
Definition traceback_at_flush (n : nat) : option exn :=
  if Nat.eqb n 5
  then Some (Exception ("write failed" ++ LF ++ "disk quota exceeded"))
  else None.

(** Texts with no line feed under every [print] of a program. *)
Definition one_line (f : stream) (text : string) : Prop := lf_free text = true.

(* ================================================================= *)
(** * Properties of the interpreter *)

Section Interpreter.

Variable w : world.

Lemma exec_bind {A B : Type} (p : prog A) (q : A -> prog B) (s : counters) :
  exec w (bind p q) s =
  match exec w p s with
  | (t1, s1, inr a) =>
      let '(t2, s2, res) := exec w (q a) s1 in ((t1 ++ t2)%list, s2, res)
  | (t1, s1, inl e) => (t1, s1, inl e)
  end.
Proof.
  revert s; induction p as [a | c k IH]; intro s; simpl.
  - destruct (exec w (q a) s) as [[t2 s2] res]; reflexivity.
  - destruct (strikes w s) as [e |]; [reflexivity |].
    destruct (perform w c s) as [r [evs s1]].
    rewrite IH.
    destruct (exec w (k r) s1) as [[t1 s1'] [e | a]]; [reflexivity |].
    destruct (exec w (q a) s1') as [[t2 s2] res].
    now rewrite app_assoc.
Qed.

(** The number of calls never goes down, and a run that ends in an
    exception ends right after the call the fault struck. *)
Lemma exec_calls {A : Type} (p : prog A) (s : counters) :
  (n_calls s <= n_calls (final (exec w p s)))%nat /\
  forall e, result (exec w p s) = inl e ->
            exists at_call, fault w = Some (at_call, e)
                            /\ (n_calls s <= at_call < n_calls (final (exec w p s)))%nat.
Proof.
  revert s; induction p as [a | c k IH]; intro s; simpl.
  - split; [apply Nat.le_refl | discriminate].
  - unfold strikes. destruct (fault w) as [[at_call e0] |] eqn:Hf.
    + destruct (Nat.eqb at_call (n_calls s)) eqn:Hk.
      * apply Nat.eqb_eq in Hk. split; cbn; [lia |].
        intros e He. inversion He; subst. exists (n_calls s). split; [reflexivity | lia].
      * assert (Hs1 : n_calls (snd (snd (perform w c s))) = S (n_calls s))
          by (destruct c; reflexivity).
        destruct (perform w c s) as [r [evs s1]]; cbn in Hs1.
        specialize (IH r s1).
        destruct (exec w (k r) s1) as [[t s2] res]; cbn in *.
        destruct IH as [Hle Hraise]. split; [lia |].
        intros e He. destruct (Hraise e He) as [k' [Hk' Hin]].
        exists k'. split; [exact Hk' | lia].
    + assert (Hs1 : n_calls (snd (snd (perform w c s))) = S (n_calls s))
        by (destruct c; reflexivity).
      destruct (perform w c s) as [r [evs s1]]; cbn in Hs1.
      specialize (IH r s1).
      destruct (exec w (k r) s1) as [[t s2] res]; cbn in *.
      destruct IH as [Hle Hraise]. split; [lia |].
      intros e He. destruct (Hraise e He) as [k' [Hk' _]]. discriminate.
Qed.

(** Once the fault has struck, no later call is struck. *)
Lemma strikes_after (s : counters) (at_call : nat) (e : exn) :
  fault w = Some (at_call, e) -> (at_call < n_calls s)%nat -> strikes w s = None.
Proof.
  intros Hf Hlt. unfold strikes. rewrite Hf.
  destruct (Nat.eqb at_call (n_calls s)) eqn:Hk; [| reflexivity].
  apply Nat.eqb_eq in Hk. lia.
Qed.

(** A run is the run of the calm world up to the call the fault
    strikes. *)
Lemma exec_fault_prefix {A : Type} (p : prog A) (s : counters) :
  match result (exec w p s) with
  | inr _ => exec w p s = exec (calm w) p s
  | inl _ => exists rest, trace (exec (calm w) p s) = (trace (exec w p s) ++ rest)%list
  end.
Proof.
  revert s; induction p as [a | c k IH]; intro s; simpl.
  - reflexivity.
  - change (strikes (calm w) s) with (@None exn).
    change (perform (calm w) c s) with (perform w c s).
    destruct (strikes w s) as [e |]; cbn.
    + eexists; reflexivity.
    + destruct (perform w c s) as [r [evs s1]].
      specialize (IH r s1).
      destruct (exec w (k r) s1) as [[t s2] res]; cbn in *.
      destruct res as [e | a].
      * destruct IH as [rest Hrest].
        destruct (exec (calm w) (k r) s1) as [[t0 s0] res0]; cbn in *.
        exists rest. rewrite Hrest. now rewrite app_assoc.
      * rewrite <- IH. reflexivity.
Qed.

(** In a world with no fault every program runs to its end. *)
Lemma exec_calm_returns {A : Type} (p : prog A) (s : counters) :
  fault w = None -> exists a, result (exec w p s) = inr a.
Proof.
  intro Hf. destruct (result (exec w p s)) as [e | a] eqn:Hr.
  - destruct (exec_calls p s) as [_ Hraise].
    destruct (Hraise e Hr) as [k [Hk _]]. congruence.
  - now exists a.
Qed.

End Interpreter.

Lemma calm_id (w : world) : fault w = None -> calm w = w.
Proof. destruct w as [c d f]; cbn; intros ->; reflexivity. Qed.

(* ================================================================= *)
(** * Time stamps and log lines *)

Lemma take_app (n : nat) (a b : string) :
  String.length a = n -> take n (a ++ b) = a.
Proof.
  intros <-. induction a as [| c a IH]; cbn; [now destruct b | now rewrite IH].
Qed.

Lemma drop_app (n : nat) (a b : string) :
  String.length a = n -> drop n (a ++ b) = b.
Proof.
  intros <-. induction a as [| c a IH]; cbn; [now destruct b | exact IH].
Qed.


Lemma shaped_length (pat s : string) :
  shaped pat s = true -> String.length s = String.length pat.
Proof.
  revert s; induction pat as [| p pat IH]; intros [| c s]; cbn; try discriminate.
  - reflexivity.
  - intro H. apply andb_true_iff in H as [_ H]. now rewrite (IH s H).
Qed.

Lemma shaped_app (p1 p2 s1 s2 : string) :
  shaped p1 s1 = true -> shaped p2 s2 = true -> shaped (p1 ++ p2) (s1 ++ s2) = true.
Proof.
  revert s1; induction p1 as [| p p1 IH]; intros [| c s1]; cbn; try discriminate.
  - auto.
  - intros H1 H2. apply andb_true_iff in H1 as [Hc H1].
    rewrite Hc. cbn. now apply IH.
Qed.

(** The decimal text of a number of at most [width] digits, filled with
    zeros, is made of [width] digits; checked on every such number. *)
Lemma zfill2_shaped (x : Z) :
  0 <= x <= 99 -> shaped "dd" (zfill 2 (str_int x)) = true.
Proof.
  intro Hx.
  assert (Hall : forallb (fun n => shaped "dd" (zfill 2 (str_int (Z.of_nat n))))
                         (seq 0 100) = true) by (vm_compute; reflexivity).
  rewrite forallb_forall in Hall.
  specialize (Hall (Z.to_nat x)). rewrite Z2Nat.id in Hall by lia.
  apply Hall, in_seq. lia.
Qed.

Lemma zfill4_shaped (x : Z) :
  0 <= x <= 9999 -> shaped "dddd" (zfill 4 (str_int x)) = true.
Proof.
  intro Hx.
  assert (Hall : forallb (fun n => shaped "dddd" (zfill 4 (str_int (Z.of_nat n))))
                         (seq 0 (100 * 100)) = true) by (vm_compute; reflexivity).
  rewrite forallb_forall in Hall.
  specialize (Hall (Z.to_nat x)). rewrite Z2Nat.id in Hall by lia.
  apply Hall, in_seq. lia.
Qed.

Lemma within_spec (lo hi x : Z) : within lo hi x = true -> lo <= x <= hi.
Proof. unfold within. intro H. apply andb_true_iff in H as [H1 H2]. lia. Qed.

(** [strftime] gives the shape [YYYY-MM-DD HH:MM:SS] on every valid date
    and time. *)
Lemma strftime_shape (d : datetime) :
  valid_datetime d = true -> stamp_ok (strftime d) = true.
Proof.
  unfold valid_datetime. intro H.
  repeat (apply andb_true_iff in H as [H ?]).
  repeat match goal with
         | Hw : within _ _ _ = true |- _ => apply within_spec in Hw
         end.
  unfold stamp_ok, strftime.
  change "dddd-dd-dd dd:dd:dd"
    with ("dddd" ++ "-" ++ "dd" ++ "-" ++ "dd" ++ " " ++ "dd" ++ ":" ++ "dd" ++ ":" ++ "dd").
  repeat first
    [ apply shaped_app
    | apply zfill4_shaped; lia
    | apply zfill2_shaped; lia
    | reflexivity ].
Qed.

Lemma strftime_length (d : datetime) :
  valid_datetime d = true -> String.length (strftime d) = 19%nat.
Proof. intro H. now rewrite (shaped_length _ _ (strftime_shape d H)). Qed.

(** Side conditions on a log line: the clock reading is valid and the
    level is one of the three. *)
Ltac log_side :=
  solve [ assumption
        | match goal with H : clock_valid _ |- valid_datetime _ = true => apply H end
        | unfold known_level; auto ].

Lemma parse_log_text (d : datetime) (lvl msg : string) :
  valid_datetime d = true -> known_level lvl ->
  parse_log (log_text d lvl msg) = Some (mk_log_line (strftime d) lvl msg).
Proof.
  intros Hd Hl. unfold log_text, parse_log. cbn [append].
  rewrite Ascii.eqb_refl.
  rewrite !(take_app _ _ _ (strftime_length d Hd)).
  rewrite !(drop_app _ _ _ (strftime_length d Hd)).
  rewrite (strftime_shape d Hd).
  destruct Hl as [-> | [-> | ->]]; reflexivity.
Qed.




(* ================================================================= *)
(** * Observations are additive *)

Lemma journal_app (a b : list event) : journal (a ++ b) = (journal a ++ journal b)%list.
Proof. apply flat_map_app. Qed.

Lemma filter_flat_map {X Y : Type} (keep : Y -> bool) (f : X -> list Y) (xs : list X) :
  filter keep (flat_map f xs) = flat_map (fun x => filter keep (f x)) xs.
Proof.
  induction xs as [| x xs IH]; cbn; [reflexivity |].
  now rewrite filter_app, IH.
Qed.

Lemma flat_map_flat_map {X Y Z' : Type} (g : Y -> list Z') (f : X -> list Y) (xs : list X) :
  flat_map g (flat_map f xs) = flat_map (fun x => flat_map g (f x)) xs.
Proof.
  induction xs as [| x xs IH]; cbn; [reflexivity |].
  now rewrite flat_map_app, IH.
Qed.

Lemma skeleton_app (a b : list event) : skeleton (a ++ b) = (skeleton a ++ skeleton b)%list.
Proof. unfold skeleton. now rewrite journal_app, filter_app. Qed.

Lemma messages_at_app (lvl : string) (a b : list event) :
  messages_at lvl (a ++ b) = (messages_at lvl a ++ messages_at lvl b)%list.
Proof. unfold messages_at. now rewrite journal_app, flat_map_app. Qed.

Lemma sleeps_app (a b : list event) : sleeps (a ++ b) = (sleeps a ++ sleeps b)%list.
Proof. apply flat_map_app. Qed.

Lemma printed_app (f : stream) (a b : list event) :
  printed f (a ++ b) = (printed f a ++ printed f b)%list.
Proof. apply flat_map_app. Qed.

(** The pauses of the journal are the sleeps of the trace. *)
Lemma sleeps_journal (t : list event) :
  sleeps t = flat_map (fun i => match i with Pause d => [d] | _ => [] end) (journal t).
Proof.
  induction t as [| ev t IH]; [reflexivity |].
  change (ev :: t) with ([ev] ++ t)%list.
  rewrite sleeps_app, journal_app, flat_map_app, <- IH. f_equal.
  destruct ev as [[|] text | f | d]; cbn; try reflexivity.
  now destruct (parse_log text).
Qed.

(* ================================================================= *)
(** * The task simulator in a calm world *)

Section CalmTaskSimulator.

Import ExampleTask.

Variable w : world.
Hypothesis clock_ok : clock_valid w.

Lemma exec_log_message_calm (msg : string) (lvl : option string) (s : counters) :
  exec (calm w) (log_message msg lvl) s =
  ([Wrote Stdout (log_text (clock w (n_now s)) (level_or_default lvl) msg);
    Flushed Stdout],
   mk_counters (3 + n_calls s) (S (n_now s)) (n_random s),
   inr tt).
Proof. reflexivity. Qed.

Lemma journal_log_line (d : datetime) (lvl msg : string) :
  valid_datetime d = true -> known_level lvl ->
  journal [Wrote Stdout (log_text d lvl msg); Flushed Stdout] = [Line lvl msg].
Proof.
  intros Hd Hl. unfold journal. cbn [flat_map view].
  now rewrite (parse_log_text d lvl msg Hd Hl).
Qed.

Lemma simulate_work_loop (duration : Z) (task_name : string) :
  simulate_work duration task_name =
  (log_message ("Starting " ++ task_name) None ;;
   for_each (range 0 11) (work_step duration task_name) ;;
   log_message ("Completed " ++ task_name) None)%prog.
Proof. reflexivity. Qed.

Lemma work_step_calm (duration : Z) (task_name : string) (i : Z) (s : counters) :
  result (exec (calm w) (work_step duration task_name i) s) = inr tt
  /\ n_random (final (exec (calm w) (work_step duration task_name i) s))
     = (if i <? 10 then S (n_random s) else n_random s)
  /\ journal (trace (exec (calm w) (work_step duration task_name i) s))
     = step_items duration task_name i (draws w (n_random s)).
Proof.
  unfold work_step, step_items.
  rewrite exec_bind, exec_log_message_calm.
  destruct (i <? 10).
  - cbn [when]. rewrite exec_bind. cbn [time_sleep exec strikes calm fault perform].
    rewrite exec_bind. cbn [random_random exec strikes calm fault perform draws
                            n_random called n_calls n_now].
    destruct (PrimFloat.ltb (draws w (n_random s)) 0.1).
    + cbn [when]. rewrite exec_log_message_calm.
      cbn [result final trace fst snd app n_random].
      repeat split.
      change (?a :: ?b :: ?c :: ?rest)%list with ([a; b] ++ [c] ++ rest)%list.
      rewrite !journal_app.
      rewrite !journal_log_line by log_side.
      reflexivity.
    + cbn [when exec result final trace fst snd app n_random].
      repeat split.
      change (?a :: ?b :: ?rest)%list with ([a; b] ++ rest)%list.
      rewrite journal_app.
      rewrite journal_log_line by log_side.
      reflexivity.
  - cbn [when exec result final trace fst snd app n_random].
    repeat split.
    rewrite journal_log_line by log_side.
    reflexivity.
Qed.

Lemma work_loop_calm (duration : Z) (task_name : string) (xs : list Z) (s : counters) :
  result (exec (calm w) (for_each xs (work_step duration task_name)) s) = inr tt
  /\ n_random (final (exec (calm w) (for_each xs (work_step duration task_name)) s))
     = loop_draws xs (n_random s)
  /\ journal (trace (exec (calm w) (for_each xs (work_step duration task_name)) s))
     = loop_items w duration task_name xs (n_random s).
Proof.
  revert s; induction xs as [| i xs IH]; intro s.
  - cbn. auto.
  - cbn [for_each loop_items loop_draws]. rewrite exec_bind.
    destruct (work_step_calm duration task_name i s) as (Hr & Hn & Hj).
    destruct (exec (calm w) (work_step duration task_name i) s) as [[t1 s1] res1].
    cbn [result final trace fst snd] in Hr, Hn, Hj. subst res1.
    specialize (IH s1). destruct IH as (Hr2 & Hn2 & Hj2).
    destruct (exec (calm w) (for_each xs (work_step duration task_name)) s1)
      as [[t2 s2] res2].
    cbn [result final trace fst snd] in *.
    rewrite journal_app, Hj, Hj2, Hn2, Hn. auto.
Qed.

Lemma simulate_work_calm (duration : Z) (task_name : string) (s : counters) :
  result (exec (calm w) (simulate_work duration task_name) s) = inr tt
  /\ n_random (final (exec (calm w) (simulate_work duration task_name) s))
     = (10 + n_random s)%nat
  /\ journal (trace (exec (calm w) (simulate_work duration task_name) s))
     = (Line "INFO" ("Starting " ++ task_name)
        :: loop_items w duration task_name (range 0 11) (n_random s)
        ++ [Line "INFO" ("Completed " ++ task_name)])%list.
Proof.
  rewrite simulate_work_loop.
  rewrite exec_bind, exec_log_message_calm, exec_bind.
  destruct (work_loop_calm duration task_name (range 0 11)
              (mk_counters (3 + n_calls s) (S (n_now s)) (n_random s)))
    as (Hr & Hn & Hj).
  destruct (exec (calm w) (for_each (range 0 11) (work_step duration task_name)) _)
    as [[t1 s1] res1].
  cbn [result final trace fst snd n_random] in Hr, Hn, Hj. subst res1.
  rewrite exec_log_message_calm. cbn [result final trace fst snd n_random].
  repeat split.
  - rewrite Hn. reflexivity.
  - change (?a :: ?b :: ?rest)%list with ([a; b] ++ rest)%list.
    rewrite !journal_app, Hj.
    rewrite !journal_log_line by log_side.
    reflexivity.
Qed.

End CalmTaskSimulator.

(* ================================================================= *)
(** * The progress report of one task *)

Section TaskReport.

Import ExampleTask.

Variable w : world.
Hypothesis clock_ok : clock_valid w.

Lemma loop_items_skeleton (duration : Z) (task_name : string) (xs : list Z) (k : nat) :
  filter (fun i => negb (is_warning i)) (loop_items w duration task_name xs k)
  = flat_map (fun i =>
      Line "INFO" (task_name ++ " progress: "
                   ++ format_f1 (PrimFloat.mul (true_div i 10) (float_of_int 100)) ++ "%")
      :: (if i <? 10 then [Pause (true_div duration 10)] else [])) xs.
Proof.
  revert k; induction xs as [| i xs IH]; intro k; [reflexivity |].
  cbn [loop_items flat_map]. rewrite filter_app, IH. f_equal.
  unfold step_items. destruct (i <? 10); [| reflexivity].
  destruct (PrimFloat.ltb (draws w k) 0.1); reflexivity.
Qed.

Lemma simulate_work_skeleton (duration : Z) (task_name : string) (s : counters) :
  skeleton (trace (exec (calm w) (simulate_work duration task_name) s))
  = progress_report task_name duration.
Proof.
  destruct (simulate_work_calm w clock_ok duration task_name s) as (_ & _ & Hj).
  unfold skeleton. rewrite Hj.
  cbn [filter is_warning String.eqb Ascii.eqb Bool.eqb negb].
  rewrite filter_app, loop_items_skeleton. reflexivity.
Qed.

Lemma simulate_work_journal (duration : Z) (task_name : string) (s : counters) :
  journal (trace (exec (calm w) (simulate_work duration task_name) s))
  = (Line "INFO" ("Starting " ++ task_name)
     :: flat_map (fun k =>
          [Line "INFO" (task_name ++ " progress: " ++ nth k percents "" ++ "%");
           Pause (true_div duration 10)]
          ++ warning_line task_name k (draws w (k + n_random s)))
          (seq 0 10)
     ++ [Line "INFO" (task_name ++ " progress: 100.0%");
         Line "INFO" ("Completed " ++ task_name)])%list.
Proof.
  destruct (simulate_work_calm w clock_ok duration task_name s) as (_ & _ & Hj).
  rewrite Hj. f_equal.
  generalize (n_random s) as k. intro k.
  unfold warning_line.
  let xs := eval vm_compute in (range 0 11) in change (range 0 11) with xs.
  cbn [loop_items seq flat_map Nat.add nth percents Z.ltb Z.compare Pos.compare
       Pos.compare_cont].
  unfold step_items.
  cbn [Z.ltb Z.compare Pos.compare Pos.compare_cont].
  repeat match goal with
         | |- context [PrimFloat.ltb (draws w ?n) ?c] =>
             generalize (PrimFloat.ltb (draws w n) c); intro
         end.
  rewrite <- !app_assoc. cbn [app].
  reflexivity.
Qed.

End TaskReport.

(* ================================================================= *)
(** * The whole task simulator in a calm world *)

Section CalmMain.

Import ExampleTask.

Variable w : world.
Hypothesis clock_ok : clock_valid w.

Lemma skeleton_info_line (d : datetime) (msg : string) :
  valid_datetime d = true ->
  skeleton [Wrote Stdout (log_text d "INFO" msg); Flushed Stdout] = [Line "INFO" msg].
Proof.
  intro Hd. unfold skeleton.
  rewrite journal_log_line by log_side.
  reflexivity.
Qed.

Lemma tasks_loop_calm (ts : list (string * Z)) (s : counters) :
  result (exec (calm w)
            (for_each ts (fun '(task_name, duration) =>
               simulate_work duration task_name ;; time_sleep 0.5)%prog) s) = inr tt
  /\ skeleton (trace (exec (calm w)
            (for_each ts (fun '(task_name, duration) =>
               simulate_work duration task_name ;; time_sleep 0.5)%prog) s))
     = flat_map (fun '(task_name, duration) =>
                   progress_report task_name duration ++ [Pause 0.5%float])%list ts.
Proof.
  revert s; induction ts as [| [task_name duration] ts IH]; intro s.
  - cbn. auto.
  - cbn [for_each flat_map]. rewrite !exec_bind.
    pose proof (simulate_work_skeleton w clock_ok duration task_name s) as Hsk.
    destruct (simulate_work_calm w clock_ok duration task_name s) as (Hr & _ & _).
    destruct (exec (calm w) (simulate_work duration task_name) s) as [[t1 s1] res1].
    cbn [result trace fst snd] in Hr, Hsk. subst res1.
    cbn [time_sleep exec strikes calm fault perform].
    specialize (IH (called s1)). destruct IH as (Hr2 & Hsk2).
    destruct (exec (calm w) _ (called s1)) as [[t2 s2] res2].
    cbn [result trace fst snd] in *. subst res2. split; [reflexivity |].
    rewrite !skeleton_app, Hsk, Hsk2. now rewrite <- app_assoc.
Qed.

Lemma main_try_calm (h : host) :
  result (exec (calm w) (main_try h) start) = inr 0
  /\ skeleton (trace (exec (calm w) (main_try h) start)) = main_report (sys_version h).
Proof.
  unfold main_try.
  rewrite exec_bind, exec_log_message_calm.
  rewrite exec_bind, exec_log_message_calm.
  rewrite exec_bind.
  match goal with
  | |- context [exec (calm w) (for_each tasks ?body) ?s] =>
      destruct (tasks_loop_calm tasks s) as (Hr & Hsk);
      destruct (exec (calm w) (for_each tasks body) s) as [[t1 s1] res1]
  end.
  cbn [result trace fst snd] in Hr, Hsk. subst res1.
  rewrite exec_bind, exec_log_message_calm.
  rewrite exec_bind, exec_log_message_calm.
  cbn [exec result trace fst snd]. split; [reflexivity |].
  unfold main_report.
  rewrite app_nil_r.
  change (?a :: ?b :: ?rest)%list with ([a; b] ++ rest)%list.
  rewrite !skeleton_app, Hsk.
  rewrite !skeleton_info_line by apply clock_ok.
  reflexivity.
Qed.

Lemma main_calm (h : host) :
  main h (calm w) = exec (calm w) (main_try h) start.
Proof.
  unfold main, try_except.
  destruct (main_try_calm h) as (Hr & _).
  destruct (exec (calm w) (main_try h) start) as [[t s1] res].
  cbn [result snd] in Hr. now subst res.
Qed.

End CalmMain.

(* ================================================================= *)
(** * What holds of every run, calm or not *)

Section Invariants.

Variable w : world.
Hypothesis clock_ok : clock_valid w.

Lemma perform_answer_ok (c : call) (s : counters) :
  answer_ok c (fst (perform w c s)).
Proof. destruct c; cbn; auto. Qed.

Lemma perform_events_ok (R : stream -> string -> Prop) (c : call) (s : counters) :
  match c with c_print f text => R f text | _ => True end ->
  Forall (event_ok R) (fst (snd (perform w c s))).
Proof. destruct c; cbn; auto. Qed.

Lemma prints_all_exec (R : stream -> string -> Prop) {A : Type} (p : prog A)
    (s : counters) :
  prints_all R p -> Forall (event_ok R) (trace (exec w p s)).
Proof.
  revert s; induction p as [a | c k IH]; intros s Hp; cbn.
  - constructor.
  - destruct Hp as [Hc Hk].
    destruct (strikes w s); [constructor |].
    pose proof (perform_answer_ok c s) as Hr.
    pose proof (perform_events_ok R c s Hc) as He.
    destruct (perform w c s) as [r [evs s1]]; cbn [fst snd] in Hr, He.
    specialize (IH r s1 (Hk r Hr)).
    destruct (exec w (k r) s1) as [[t s2] res]; cbn [trace fst] in *.
    apply Forall_app; auto.
Qed.

Lemma returns_all_exec {A : Type} (P : A -> Prop) (p : prog A) (s : counters) (a : A) :
  returns_all P p -> result (exec w p s) = inr a -> P a.
Proof.
  revert s; induction p as [a0 | c k IH]; intros s Hp; cbn.
  - intro H; inversion H; subst; exact Hp.
  - destruct (strikes w s); [discriminate |].
    destruct (perform w c s) as [r [evs s1]].
    specialize (IH r s1 (Hp r)).
    destruct (exec w (k r) s1) as [[t s2] res]; cbn [result snd] in *. exact IH.
Qed.


(** A tidy program leaves every line flushed, except that a fault that
    strikes the flush itself leaves the last line written. *)
Lemma tidy_exec {A : Type} (p : prog A) (s : counters) :
  tidy p ->
  match result (exec w p s) with
  | inr _ => flushed_at_once None (trace (exec w p s)) = true
  | inl _ =>
      flushed_at_once None (trace (exec w p s)) = true
      \/ exists t' f x, trace (exec w p s) = (t' ++ [Wrote f x])%list
                        /\ flushed_at_once None t' = true
  end.
Proof.
  intro Hp; revert s; induction Hp as
    [a | f text k k' Hk Hk' IH | f k Hk IH | secs k Hk IH | k Hk IH | k Hk IH];
    intro s; cbn [exec].
  - reflexivity.
  - destruct (strikes w s); [now left |].
    cbn [perform]. rewrite Hk. cbn [exec].
    destruct (strikes w (called s)).
    + cbn. right. exists [], f, text. auto.
    + cbn [perform]. specialize (IH (called (called s))).
      destruct (exec w (k' tt) (called (called s))) as [[t s2] [e | a]];
        cbn [result trace fst snd app] in *.
      * destruct IH as [IH | (t' & g & x & Ht & IH)].
        -- left. cbn. destruct f; cbn; exact IH.
        -- right. exists (Wrote f text :: Flushed f :: t'), g, x. subst t.
           split; [reflexivity |]. cbn. destruct f; cbn; exact IH.
      * cbn. destruct f; cbn; exact IH.
  - destruct (strikes w s); [now left |].
    cbn [perform]. specialize (IH (called s)).
    destruct (exec w (k tt) (called s)) as [[t s2] [e | a]];
      cbn [result trace fst snd app] in *.
    + destruct IH as [IH | (t' & g & x & Ht & IH)]; [now left |].
      right. exists (Flushed f :: t'), g, x. subst t. auto.
    + exact IH.
  - destruct (strikes w s); [now left |].
    cbn [perform]. specialize (IH (called s)).
    destruct (exec w (k tt) (called s)) as [[t s2] [e | a]];
      cbn [result trace fst snd app] in *.
    + destruct IH as [IH | (t' & g & x & Ht & IH)]; [now left |].
      right. exists (Slept secs :: t'), g, x. subst t. auto.
    + exact IH.
  - destruct (strikes w s); [now left |].
    cbn [perform].
    match goal with |- context [exec w (k ?d) ?s'] => specialize (IH d s');
      destruct (exec w (k d) s') as [[t s2] [e | a]] end;
      cbn [result trace fst snd app] in *; exact IH.
  - destruct (strikes w s); [now left |].
    cbn [perform].
    match goal with |- context [exec w (k ?d) ?s'] => specialize (IH d s');
      destruct (exec w (k d) s') as [[t s2] [e | a]] end;
      cbn [result trace fst snd app] in *; exact IH.
Qed.

End Invariants.

(** The three predicates go through sequencing and loops. *)

Lemma prints_all_bind (R : stream -> string -> Prop) {A B : Type}
    (p : prog A) (q : A -> prog B) :
  prints_all R p -> (forall a, prints_all R (q a)) -> prints_all R (bind p q).
Proof.
  induction p as [a | c k IH]; cbn; intros Hp Hq; [apply Hq |].
  destruct Hp as [Hc Hk]. split; [exact Hc |]. intros r Hr. apply IH; auto.
Qed.

Lemma prints_all_for_each (R : stream -> string -> Prop) {X : Type}
    (xs : list X) (body : X -> prog unit) :
  (forall x, prints_all R (body x)) -> prints_all R (for_each xs body).
Proof.
  intro Hb. induction xs as [| x xs IH]; cbn [for_each]; [exact I |].
  apply prints_all_bind; auto.
Qed.

Lemma returns_all_bind {A B : Type} (P : B -> Prop) (p : prog A) (q : A -> prog B) :
  (forall a, returns_all P (q a)) -> returns_all P (bind p q).
Proof.
  induction p as [a | c k IH]; cbn; intro Hq; [apply Hq |].
  intro r. apply IH, Hq.
Qed.

Lemma tidy_bind {A B : Type} (p : prog A) (q : A -> prog B) :
  tidy p -> (forall a, tidy (q a)) -> tidy (bind p q).
Proof.
  intros Hp Hq. induction Hp as
    [a | f text k k' Hk Hk' IH | f k Hk IH | secs k Hk IH | k Hk IH | k Hk IH];
    cbn [bind].
  - apply Hq.
  - apply tidy_print with (k' := fun r => bind (k' r) q); [| exact IH].
    cbn beta. rewrite Hk. reflexivity.
  - apply tidy_flush. exact IH.
  - apply tidy_sleep. exact IH.
  - apply tidy_now. exact IH.
  - apply tidy_random. exact IH.
Qed.

Lemma tidy_for_each {X : Type} (xs : list X) (body : X -> prog unit) :
  (forall x, tidy (body x)) -> tidy (for_each xs body).
Proof.
  intro Hb. induction xs as [| x xs IH]; cbn [for_each]; [constructor |].
  apply tidy_bind; auto.
Qed.

(* ================================================================= *)
(** * The task simulator under a fault *)

Section FaultyTaskSimulator.

Import ExampleTask.

Lemma prints_all_log_message (allowed : string -> string -> Prop)
    (msg : string) (lvl : option string) :
  allowed (level_or_default lvl) msg ->
  prints_all (logged allowed) (log_message msg lvl).
Proof.
  intro Ha. cbn. split; [exact I |]. intros d Hd. cbn.
  split.
  - split; [reflexivity |]. exists d, (level_or_default lvl), msg. auto.
  - intros _ _. cbn. auto.
Qed.

Lemma tidy_log_message (msg : string) (lvl : option string) :
  tidy (log_message msg lvl).
Proof.
  apply tidy_now. intro d. cbn.
  eapply tidy_print; [reflexivity |]. constructor.
Qed.

Lemma prints_all_simulate_work (duration : Z) (task_name : string) :
  prints_all (logged body_line) (simulate_work duration task_name).
Proof.
  unfold simulate_work.
  apply prints_all_bind; [apply prints_all_log_message; now left |]. intros _.
  apply prints_all_bind; [| intros _; apply prints_all_log_message; now left].
  apply prints_all_for_each. intro i.
  apply prints_all_bind; [apply prints_all_log_message; now left |]. intros _.
  destruct (i <? 10); [| exact I]. cbn [when].
  apply prints_all_bind; [cbn; auto |]. intros _.
  apply prints_all_bind; [cbn; auto |]. intro r.
  destruct (PrimFloat.ltb r 0.1); [| exact I]. cbn [when].
  apply prints_all_log_message. right. split; reflexivity.
Qed.

Lemma tidy_simulate_work (duration : Z) (task_name : string) :
  tidy (simulate_work duration task_name).
Proof.
  unfold simulate_work.
  apply tidy_bind; [apply tidy_log_message |]. intros _.
  apply tidy_bind; [| intros _; apply tidy_log_message].
  apply tidy_for_each. intro i.
  apply tidy_bind; [apply tidy_log_message |]. intros _.
  destruct (i <? 10); [| constructor]. cbn [when].
  apply tidy_bind; [apply tidy_sleep; constructor |]. intros _.
  apply tidy_bind; [apply tidy_random; constructor |]. intro r.
  destruct (PrimFloat.ltb r 0.1); [| constructor]. cbn [when].
  apply tidy_log_message.
Qed.



Lemma returns_all_main_try (h : host) : returns_all (fun code => code = 0) (main_try h).
Proof.
  unfold main_try.
  repeat (apply returns_all_bind; intros _).
  reflexivity.
Qed.

Variable w : world.
Hypothesis clock_ok : clock_valid w.

(** Once the fault has struck, [log_message] runs to its end. *)
Lemma exec_log_message_after (msg : string) (lvl : option string) (s : counters)
    (at_call : nat) (e : exn) :
  fault w = Some (at_call, e) -> (at_call < n_calls s)%nat ->
  exec w (log_message msg lvl) s =
  ([Wrote Stdout (log_text (clock w (n_now s)) (level_or_default lvl) msg);
    Flushed Stdout],
   mk_counters (3 + n_calls s) (S (n_now s)) (n_random s),
   inr tt).
Proof.
  intros Hf Hlt. unfold log_message. cbn [bind datetime_now print flush exec].
  rewrite (strikes_after w s at_call e Hf Hlt). cbn [perform].
  rewrite (strikes_after w _ at_call e Hf) by (cbn; lia). cbn [perform].
  rewrite (strikes_after w _ at_call e Hf) by (cbn; lia). cbn [perform].
  reflexivity.
Qed.


(** What the lines of the [try] body can and cannot be. *)
Lemma body_lines (t : list event) :
  Forall (event_ok (logged body_line)) t ->
  messages_at "ERROR" t = []
  /\ filter (String.eqb "Script interrupted by user") (messages_at "WARNING" t) = []
  /\ printed Stderr t = []
  /\ forallb well_formed (printed Stdout t) = true.
Proof.
  induction 1 as [| ev t Hev _ IH]; [cbn; auto |].
  destruct IH as (IH1 & IH2 & IH3 & IH4).
  change (ev :: t) with ([ev] ++ t)%list.
  rewrite !messages_at_app, filter_app, !printed_app, forallb_app, IH1, IH2, IH3, IH4.
  destruct ev as [f text | f | secs]; try (cbn; auto; fail).
  destruct Hev as (-> & d & lvl & msg & Hd & Hl & ->).
  assert (Hk : known_level lvl)
    by (destruct Hl as [-> | [-> _]]; unfold known_level; auto).
  unfold messages_at, well_formed, journal.
  cbn [flat_map view printed stream_eqb forallb app].
  rewrite (parse_log_text d lvl msg Hd Hk). cbn [level message app flat_map].
  destruct Hl as [-> | [-> Hm]].
  - cbn. auto.
  - destruct msg as [| c msg]; [discriminate |].
    cbn [starts_with] in Hm. apply andb_true_iff in Hm as [Hc _].
    apply Ascii.eqb_eq in Hc. subst c. cbn. auto.
Qed.

End FaultyTaskSimulator.

(* ================================================================= *)
(** * The demo output generator and the color probe in a calm world *)

Lemma sample_clock_valid (f : option (nat * exn)) :
  clock_valid (mk_world sample_clock sample_draws f).
Proof. intro n. reflexivity. Qed.

Lemma demo_output_run (h : host) (w : world) :
  fault w = None ->
  exec w (DemoOutput.main h) start = (demo_expected h, mk_counters 68 0 0, inr tt).
Proof.
  intro Hf. rewrite <- (calm_id w Hf).
  destruct h as [file pid version]. vm_compute. reflexivity.
Qed.

Lemma test_colors_run (w : world) :
  fault w = None ->
  exec w TestColors.main start = (colors_expected, mk_counters 51 0 0, inr tt).
Proof.
  intro Hf. rewrite <- (calm_id w Hf). vm_compute. reflexivity.
Qed.

(* ================================================================= *)
(** * The demo output generator *)

(** C2. In a run that no fault disturbs, the demo output generator emits,
    in order: the banner; ten progress lines [Progress: i/10 (p%)] for
    i = 1..10 with p = 10 i, each followed by a flush of stdout and a delay
    of half a second; after a heading, one line on stdout and one on stderr
    with their literal texts; after a heading, twenty Lorem ipsum lines
    numbered 1 to 20 with a delay after every fifth; the completion banner.
    The lines that start with [Progress:] are exactly those ten, the texts
    of the two channel lines occur once each, and the numbered lines are
    exactly the twenty. *)
Theorem demo_output_sequence (h : host) (w : world) :
  fault w = None ->
  let t := trace (exec w (DemoOutput.main h) start) in
  t = demo_expected h
  /\ filter (starts_with "Progress:") (printed Stdout t)
     = map (fun '(i, p) => "Progress: " ++ str_int i ++ "/10 (" ++ str_int p ++ "%)")
         (combine (range 1 11) [10; 20; 30; 40; 50; 60; 70; 80; 90; 100])
  /\ filter (String.eqb "This goes to stdout") (printed Stdout t)
     = ["This goes to stdout"]
  /\ printed Stderr t = ["This goes to stderr"]
  /\ filter (starts_with "Line ") (printed Stdout t) = map lorem_line (range 1 21)
  /\ List.length (map lorem_line (range 1 21)) = 20%nat.
Proof.
  intros Hf t. subst t. rewrite (demo_output_run h w Hf). cbn [trace fst].
  destruct h as [file pid version].
  repeat split; vm_compute; reflexivity.
Qed.

Lemma demo_output_sequence_witness :
  fault calm_world = None
  /\ printed Stderr (trace (exec calm_world (DemoOutput.main sample_host) start))
     = ["This goes to stderr"].
Proof.
  split; [reflexivity |].
  apply (demo_output_sequence sample_host calm_world eq_refl).
Defined.

(** C4, as the claim states it, fails: the line written to stdout is not
    followed by a flush of stdout. *)
Lemma stdout_line_left_unflushed :
  line_flushed_at_once Stdout "This goes to stdout"
    (trace (exec calm_world (DemoOutput.main sample_host) start)) = false.
Proof. vm_compute. reflexivity. Qed.

(** C4, amended. The line written to stderr is followed at once by a flush
    of stderr.  The line written to stdout just before it is not flushed:
    the next event is the write to stderr, and the only flush in the rest
    of the run is that of stderr. *)
Theorem demo_channel_flushes (h : host) (w : world) :
  fault w = None ->
  let t := trace (exec w (DemoOutput.main h) start) in
  line_flushed_at_once Stderr "This goes to stderr" t = true
  /\ next_after Stdout "This goes to stdout" t
     = [Some (Wrote Stderr "This goes to stderr")]
  /\ flushes (events_after Stdout "This goes to stdout" t) = [Stderr].
Proof.
  intros Hf t. subst t. rewrite (demo_output_run h w Hf). cbn [trace fst].
  destruct h as [file pid version].
  repeat split; vm_compute; reflexivity.
Qed.

Lemma demo_channel_flushes_witness :
  fault calm_world = None
  /\ line_flushed_at_once Stderr "This goes to stderr"
       (trace (exec calm_world (DemoOutput.main sample_host) start)) = true.
Proof.
  split; [reflexivity |].
  apply (demo_channel_flushes sample_host calm_world eq_refl).
Defined.

(* ================================================================= *)
(** * The color probe *)

(** C7. In a run that no fault disturbs, the color probe prints, after its
    title, the seven standard colors with parameters 31 to 37 and, after a
    heading, the seven bright colors with parameters 91 to 97, fourteen
    lines in all, each followed by a delay of half a second; then, after a
    heading, the six entries of the log stream in their order, each
    followed by a delay of one second.  Every text that holds an escape
    sequence ends with the reset sequence [ESC[0m].  The tables of the
    script are these parameters and entries. *)
Theorem color_probe_sequence (w : world) :
  fault w = None ->
  let t := trace (exec w TestColors.main start) in
  t = colors_expected
  /\ List.length (standard_lines ++ bright_lines)%list = 14%nat
  /\ List.length log_stream = 6%nat
  /\ filter (contains ESC) (printed Stdout t)
     = (standard_lines ++ bright_lines
        ++ map (fun '(lvl, code, _) => colored code ("[" ++ lvl ++ "]")%string)
             log_stream)%list
  /\ forallb (fun text => implb (contains ESC text) (ends_with (ESC ++ "[0m") text))
       (printed Stdout t) = true
  /\ TestColors.colors = combine color_names (map str_int (range 31 38))
  /\ TestColors.bright_colors
     = combine (map (fun name => "Bright " ++ name) color_names)
         (map str_int (range 91 98))
  /\ TestColors.log_entries
     = map (fun '(lvl, code, msg) => (lvl, str_int code, msg)) log_stream.
Proof.
  intros Hf t. subst t. rewrite (test_colors_run w Hf). cbn [trace fst].
  repeat split; vm_compute; reflexivity.
Qed.

Lemma color_probe_sequence_witness :
  fault calm_world = None
  /\ trace (exec calm_world TestColors.main start) = colors_expected.
Proof.
  split; [reflexivity |].
  apply (color_probe_sequence calm_world eq_refl).
Defined.

(** C10. In the simulated log stream every entry gives two lines of
    output: the colored label [[LEVEL]] with its reset, alone on its line,
    and then the message after one space on the next line.  No line of the
    output holds both the label and the message of an entry. *)
Theorem log_entry_two_lines (w : world) :
  fault w = None ->
  let ls := lines (bytes_of Stdout (trace (exec w TestColors.main start))) in
  lines_after "Real-time log simulation:" ls
  = (flat_map (fun '(lvl, code, msg) =>
                 [(ESC ++ "[" ++ code ++ "m" ++ "[" ++ lvl ++ "]" ++ ESC ++ "[0m")%string;
                  (" " ++ msg)%string]) TestColors.log_entries
     ++ [""; "Color test completed!"])%list
  /\ forallb (fun l =>
       forallb (fun '(lvl, _, msg) =>
                  negb (contains ("[" ++ lvl ++ "]") l && contains msg l))
         TestColors.log_entries) ls = true.
Proof.
  intros Hf ls. subst ls. rewrite (test_colors_run w Hf). cbn [trace fst].
  split; vm_compute; reflexivity.
Qed.

Lemma log_entry_two_lines_witness :
  fault calm_world = None
  /\ List.length (lines_after "Real-time log simulation:"
               (lines (bytes_of Stdout (trace (exec calm_world TestColors.main start)))))
     = 14%nat.
Proof.
  split; [reflexivity |].
  rewrite (proj1 (log_entry_two_lines calm_world eq_refl)). reflexivity.
Defined.

(* ================================================================= *)
(** * Exit status of the two scripts without error handling *)

(** C8. The demo output generator and the color probe end with status 0
    in every run that no fault disturbs, and in no run at all do they end
    with another exit status: a fault leaves them by the exception. *)
Theorem fixtures_exit_zero (h : host) (w : world) :
  (fault w = None ->
   snd (DemoOutput.script h w) = Exit 0 /\ snd (TestColors.script w) = Exit 0)
  /\ (forall code,
        snd (DemoOutput.script h w) = Exit code \/ snd (TestColors.script w) = Exit code ->
        code = 0).
Proof.
  split.
  - intro Hf. unfold DemoOutput.script, TestColors.script.
    rewrite (demo_output_run h w Hf), (test_colors_run w Hf). split; reflexivity.
  - intros code. unfold DemoOutput.script, TestColors.script.
    destruct (exec w (DemoOutput.main h) start) as [[t1 s1] [e1 | a1]];
      destruct (exec w TestColors.main start) as [[t2 s2] [e2 | a2]];
      cbn [snd]; intros [H | H]; inversion H; reflexivity.
Qed.

Lemma fixtures_exit_zero_witness :
  snd (DemoOutput.script sample_host calm_world) = Exit 0
  /\ snd (TestColors.script calm_world) = Exit 0.
Proof. exact (proj1 (fixtures_exit_zero sample_host calm_world) eq_refl). Defined.

(* ================================================================= *)
(** * The task simulator: progress and warnings *)

Lemma sleeps_skeleton (t : list event) :
  sleeps t = flat_map (fun i => match i with Pause d => [d] | _ => [] end) (skeleton t).
Proof.
  rewrite sleeps_journal. unfold skeleton.
  induction (journal t) as [| i j IH]; [reflexivity |].
  cbn [flat_map filter]. destruct i as [lvl msg | f text | d]; cbn.
  - destruct (String.eqb lvl "WARNING"); cbn; exact IH.
  - exact IH.
  - now rewrite IH.
Qed.

(** C5. For each of the three tasks (name, duration), in a run that no
    fault disturbs, [simulate_work] prints, aside from warnings, the start
    line, then eleven progress lines with the percentages 0.0, 10.0, ...,
    100.0 (one decimal place), with one sleep of duration/10 between
    consecutive progress lines and no other sleep (ten sleeps), then the end
    line.  Each of these lines reads back as a log line, so it starts with
    a time stamp. *)
Theorem simulate_work_progress (w : world) (s : counters) :
  fault w = None -> clock_valid w ->
  List.length ExampleTask.tasks = 3%nat
  /\ Forall (fun '(task_name, duration) =>
       let t := trace (exec w (ExampleTask.simulate_work duration task_name) s) in
       skeleton t = progress_report task_name duration
       /\ sleeps t = repeat (true_div duration 10) 10
       /\ List.length percents = 11%nat)
     ExampleTask.tasks.
Proof.
  intros Hf Hc. rewrite <- (calm_id w Hf). split; [reflexivity |].
  apply Forall_forall. intros [task_name duration] _. cbv zeta.
  rewrite sleeps_skeleton.
  rewrite (simulate_work_skeleton w Hc duration task_name s).
  repeat split.
Qed.

Lemma simulate_work_progress_witness :
  fault calm_world = None /\ clock_valid calm_world
  /\ sleeps (trace (exec calm_world (ExampleTask.simulate_work 3 "Data Processing") start))
     = repeat (true_div 3 10) 10.
Proof.
  split; [reflexivity |]. split; [exact (sample_clock_valid None) |].
  pose proof (proj2 (simulate_work_progress calm_world start eq_refl
                       (sample_clock_valid None))) as H.
  apply Forall_inv in H. exact (proj1 (proj2 H)).
Defined.

(** C6. In a run of [simulate_work] that no fault disturbs, the warning
    lines are, in order, those of the steps k + 1 (k = 0..9) whose draw is
    below 0.1, the k-th draw of the run being the draw of step k + 1; each
    names the task and the step.  In the journal each stands right after
    the pause of its step. *)
Theorem simulate_work_warnings (w : world) (s : counters)
    (duration : Z) (task_name : string) :
  fault w = None -> clock_valid w ->
  let t := trace (exec w (ExampleTask.simulate_work duration task_name) s) in
  messages_at "WARNING" t
  = flat_map (fun k => warning_of task_name k (draws w (k + n_random s))) (seq 0 10)
  /\ journal t
     = (Line "INFO" ("Starting " ++ task_name)
        :: flat_map (fun k =>
             [Line "INFO" (task_name ++ " progress: " ++ nth k percents "" ++ "%");
              Pause (true_div duration 10)]
             ++ warning_line task_name k (draws w (k + n_random s)))
             (seq 0 10)
        ++ [Line "INFO" (task_name ++ " progress: 100.0%");
            Line "INFO" ("Completed " ++ task_name)])%list.
Proof.
  intros Hf Hc t. subst t. rewrite <- (calm_id w Hf).
  change (draws (calm w)) with (draws w).
  pose proof (simulate_work_journal w Hc duration task_name s) as Hj.
  split; [| exact Hj].
  unfold messages_at. rewrite Hj.
  cbn [flat_map String.eqb Ascii.eqb Bool.eqb app].
  rewrite flat_map_app, flat_map_flat_map.
  cbn [flat_map String.eqb Ascii.eqb Bool.eqb app]. rewrite app_nil_r.
  apply flat_map_ext. intro k.
  unfold warning_line, warning_of.
  destruct (PrimFloat.ltb (draws w (k + n_random s)) 0.1); reflexivity.
Qed.

Lemma simulate_work_warnings_witness :
  fault calm_world = None /\ clock_valid calm_world
  /\ messages_at "WARNING"
       (trace (exec calm_world (ExampleTask.simulate_work 3 "Data Processing") start))
     = ["Minor issue in Data Processing (step 4)"].
Proof.
  split; [reflexivity |]. split; [exact (sample_clock_valid None) |].
  rewrite (proj1 (simulate_work_warnings calm_world start 3 "Data Processing" eq_refl
                    (sample_clock_valid None))).
  reflexivity.
Defined.

(* ================================================================= *)
(** * Two runs *)

(** C3. Two runs of a script with no arguments, undisturbed, on the same
    host but for the process id, with any two clocks and any two sequences
    of draws: the color probe gives the same trace; the task simulator
    gives the same output aside from the time stamps and the warning lines;
    the demo output generator gives the same trace aside from the process
    id.  So all three keep their structure, and two of them, the color
    probe and the task simulator, are identical aside from time stamp and
    warnings. *)
Theorem rerun_output (h1 h2 : host) (w1 w2 : world) :
  fault w1 = None -> fault w2 = None -> clock_valid w1 -> clock_valid w2 ->
  script_file h1 = script_file h2 -> sys_version h1 = sys_version h2 ->
  TestColors.script w1 = TestColors.script w2
  /\ (skeleton (fst (ExampleTask.script h1 w1)) = skeleton (fst (ExampleTask.script h2 w2))
      /\ snd (ExampleTask.script h1 w1) = snd (ExampleTask.script h2 w2))
  /\ (aside_from_pid (fst (DemoOutput.script h1 w1))
      = aside_from_pid (fst (DemoOutput.script h2 w2))
      /\ snd (DemoOutput.script h1 w1) = snd (DemoOutput.script h2 w2)).
Proof.
  intros Hf1 Hf2 Hc1 Hc2 Hfile Hver. repeat split.
  - unfold TestColors.script.
    now rewrite (test_colors_run w1 Hf1), (test_colors_run w2 Hf2).
  - unfold ExampleTask.script.
    rewrite <- (calm_id w1 Hf1), <- (calm_id w2 Hf2), !main_calm by assumption.
    destruct (main_try_calm w1 Hc1 h1) as (Hr1 & Hs1).
    destruct (main_try_calm w2 Hc2 h2) as (Hr2 & Hs2).
    destruct (exec (calm w1) (ExampleTask.main_try h1) start) as [[t1 s1] res1].
    destruct (exec (calm w2) (ExampleTask.main_try h2) start) as [[t2 s2] res2].
    cbn [result trace fst snd] in *. subst res1 res2. cbn [fst].
    now rewrite Hs1, Hs2, Hver.
  - unfold ExampleTask.script.
    rewrite <- (calm_id w1 Hf1), <- (calm_id w2 Hf2), !main_calm by assumption.
    destruct (main_try_calm w1 Hc1 h1) as (Hr1 & _).
    destruct (main_try_calm w2 Hc2 h2) as (Hr2 & _).
    destruct (exec (calm w1) (ExampleTask.main_try h1) start) as [[t1 s1] res1].
    destruct (exec (calm w2) (ExampleTask.main_try h2) start) as [[t2 s2] res2].
    cbn [result snd] in *. subst res1 res2. reflexivity.
  - unfold DemoOutput.script.
    rewrite (demo_output_run h1 w1 Hf1), (demo_output_run h2 w2 Hf2). cbn [fst].
    destruct h1 as [file1 pid1 version1]; destruct h2 as [file2 pid2 version2].
    cbn [script_file] in Hfile. subst file2.
    vm_compute. reflexivity.
  - unfold DemoOutput.script.
    now rewrite (demo_output_run h1 w1 Hf1), (demo_output_run h2 w2 Hf2).
Qed.

Lemma rerun_output_witness :
  skeleton (fst (ExampleTask.script sample_host calm_world))
  = skeleton (fst (ExampleTask.script second_host second_world)).
Proof.
  apply (rerun_output sample_host second_host calm_world second_world
           eq_refl eq_refl (sample_clock_valid None) (fun _ => eq_refl)
           eq_refl eq_refl).
Defined.

(** The third script is not the same byte for byte: its [PID] line
    follows the process id. *)
Remark demo_output_pid_differs :
  fst (DemoOutput.script sample_host calm_world)
  <> fst (DemoOutput.script second_host second_world).
Proof. vm_compute. discriminate. Qed.

(* ================================================================= *)
(** * The task simulator with one fault: the handler of [main] *)

Section TaskSimulatorRuns.

Import ExampleTask.

Variable h : host.
Variable w : world.
Hypothesis clock_ok : clock_valid w.

(** How [main] goes on after its [try] body raised: the handler logs one
    line at the level of the exception and returns its code. *)
Lemma main_handles (t : list event) (s1 : counters) (e : exn) :
  exec w (main_try h) start = (t, s1, inl e) ->
  main h w =
  ((t ++ [Wrote Stdout
            (log_text (clock w (n_now s1))
               (match e with KeyboardInterrupt => "WARNING" | Exception _ => "ERROR" end)
               (match e with
                | KeyboardInterrupt => "Script interrupted by user"
                | Exception text => "Unexpected error: " ++ text
                end));
          Flushed Stdout])%list,
   mk_counters (3 + n_calls s1) (S (n_now s1)) (n_random s1),
   inr (match e with KeyboardInterrupt => 130 | Exception _ => 1 end)).
Proof.
  intro Hb.
  destruct (exec_calls w (main_try h) start) as [_ Hraise].
  rewrite Hb in Hraise. cbn [result final fst snd] in Hraise.
  destruct (Hraise e eq_refl) as (at_call & Hf & _ & Hlt).
  unfold main, try_except. rewrite Hb.
  destruct e as [| text]; cbn [main_except]; rewrite exec_bind;
    rewrite (exec_log_message_after w _ _ s1 at_call _ Hf Hlt);
    cbn [exec app]; reflexivity.
Qed.

Lemma main_passes (t : list event) (s1 : counters) (code : Z) :
  exec w (main_try h) start = (t, s1, inr code) ->
  main h w = exec (calm w) (main_try h) start /\ code = 0.
Proof.
  intro Hb. split.
  - pose proof (exec_fault_prefix w (main_try h) start) as Hp.
    rewrite Hb in Hp. cbn [result snd] in Hp. rewrite <- Hp.
    unfold main, try_except. now rewrite Hb.
  - apply (returns_all_exec w (fun c => c = 0) (main_try h) start code
             (returns_all_main_try h)).
    now rewrite Hb.
Qed.


End TaskSimulatorRuns.

(** The error path on a sample run: an I/O error at a [print] of the
    first task. *)
Example failing_run :
  result (ExampleTask.main sample_host failing_world) = inr 1
  /\ messages_at "ERROR" (trace (ExampleTask.main sample_host failing_world))
     = ["Unexpected error: [Errno 28] No space left on device"]
  /\ snd (ExampleTask.script sample_host failing_world) = Exit 1.
Proof. repeat split; vm_compute; reflexivity. Qed.

(** A text that one [print] writes can span two lines of the console: the
    version text of an older interpreter holds a line feed, and what
    follows it stands on a line of its own, with no time stamp. *)
Remark version_text_spans_lines :
  existsb (fun l => negb (well_formed l))
    (lines (bytes_of Stdout (trace (ExampleTask.main legacy_host calm_world)))) = true
  /\ forallb well_formed
       (printed Stdout (trace (ExampleTask.main legacy_host calm_world))) = true.
Proof. split; vm_compute; reflexivity. Qed.

(* ================================================================= *)
(** * Runs cut short by a fault *)

(** A fault that comes before the first call of a run, or after its last
    call, does not touch the run. *)
Lemma exec_fault_misses (w : world) {A : Type} (p : prog A) (s : counters)
    (at_call : nat) (e : exn) :
  fault w = Some (at_call, e) ->
  (at_call < n_calls s \/ n_calls (final (exec (calm w) p s)) <= at_call)%nat ->
  exec w p s = exec (calm w) p s.
Proof.
  intro Hf. revert s; induction p as [a | c k IH]; intros s Hk; cbn [exec].
  - reflexivity.
  - change (strikes (calm w) s) with (@None exn).
    change (perform (calm w) c s) with (perform w c s).
    assert (Hs1 : n_calls (snd (snd (perform w c s))) = S (n_calls s))
      by (destruct c; reflexivity).
    cbn [exec] in Hk.
    change (strikes (calm w) s) with (@None exn) in Hk.
    change (perform (calm w) c s) with (perform w c s) in Hk.
    destruct (perform w c s) as [r [evs s1]]; cbn [snd] in Hs1.
    pose proof (proj1 (exec_calls (calm w) (k r) s1)) as Hmono.
    specialize (IH r s1).
    destruct (exec (calm w) (k r) s1) as [[t0 s0] res0]; cbn [final fst snd] in *.
    assert (Hne : Nat.eqb at_call (n_calls s) = false) by (apply Nat.eqb_neq; lia).
    unfold strikes. rewrite Hf, Hne.
    rewrite IH by lia. reflexivity.
Qed.


Lemma test_colors_struck (c : nat -> datetime) (d : nat -> float)
    (at_call : nat) (e : exn) :
  (at_call < 51)%nat ->
  TestColors.script (mk_world c d (Some (at_call, e)))
  = (firstn at_call colors_expected, Uncaught e).
Proof.
  intro Hk.
  do 51 (destruct at_call as [| at_call]; [vm_compute; reflexivity |]).
  lia.
Qed.



Lemma flat_map_firstn_nil {X Y : Type} (f : X -> list Y) (n : nat) (xs : list X) :
  flat_map f xs = [] -> flat_map f (firstn n xs) = [].
Proof.
  revert n; induction xs as [| x xs IH]; intros [| n] H; cbn in *; auto.
  apply app_eq_nil in H as [Hx Hxs]. rewrite Hx. cbn. now apply IH.
Qed.

(** X3. In no run, disturbed or not, does the color probe flush a stream
    or write to stderr. *)
Theorem color_probe_never_flushes (w : world) :
  flushes (fst (TestColors.script w)) = []
  /\ printed Stderr (fst (TestColors.script w)) = [].
Proof.
  assert (Hall : flushes colors_expected = [] /\ printed Stderr colors_expected = [])
    by (split; vm_compute; reflexivity).
  destruct Hall as [Hfl Herr].
  destruct w as [c d [[at_call e] |]].
  - destruct (Nat.lt_ge_cases at_call 51) as [Hk | Hk].
    + rewrite (test_colors_struck c d at_call e Hk). cbn [fst].
      split; apply flat_map_firstn_nil; assumption.
    + unfold TestColors.script.
      rewrite (exec_fault_misses (mk_world c d (Some (at_call, e)))
                 TestColors.main start at_call e eq_refl).
      * rewrite (test_colors_run (calm (mk_world c d (Some (at_call, e)))) eq_refl).
        split; assumption.
      * right.
        rewrite (test_colors_run (calm (mk_world c d (Some (at_call, e)))) eq_refl).
        exact Hk.
  - unfold TestColors.script. rewrite (test_colors_run (mk_world c d None) eq_refl).
    split; assumption.
Qed.

(* ================================================================= *)
(** * The last line of an undisturbed run *)

Section LastLine.

Import ExampleTask.

Variable w : world.
Hypothesis clock_ok : clock_valid w.


End LastLine.

(* ================================================================= *)
(** * Reading back what [log_message] and [print_colored] print *)

Lemma cut_level_app (lvl msg : string) :
  contains ": " lvl = false -> cut_level (lvl ++ ": " ++ msg) = Some (lvl, msg).
Proof.
  induction lvl as [| c lvl IH]; intro H; [reflexivity |].
  cbn [contains] in H. apply orb_false_iff in H as [Hhere Hrest].
  change (String c lvl ++ ": " ++ msg) with (String c (lvl ++ ": " ++ msg)).
  cbn [cut_level].
  assert (Hno : starts_with ": " (String c (lvl ++ ": " ++ msg)) = false).
  { cbn [starts_with] in Hhere |- *.
    destruct (Ascii.eqb ":" c); [| reflexivity]. cbn [andb] in Hhere |- *.
    destruct lvl as [| c2 lvl]; [reflexivity |].
    cbn [append starts_with] in Hhere |- *.
    destruct (Ascii.eqb " " c2); [discriminate | reflexivity]. }
  rewrite Hno, (IH Hrest). reflexivity.
Qed.

Lemma parse_log_text_any (d : datetime) (lvl msg : string) :
  valid_datetime d = true -> contains ": " lvl = false ->
  parse_log (log_text d lvl msg) = Some (mk_log_line (strftime d) lvl msg).
Proof.
  intros Hd Hl. unfold log_text, parse_log. cbn [append].
  rewrite Ascii.eqb_refl.
  rewrite !(take_app _ _ _ (strftime_length d Hd)).
  rewrite !(drop_app _ _ _ (strftime_length d Hd)).
  rewrite (strftime_shape d Hd).
  cbn [andb starts_with Ascii.eqb Bool.eqb drop].
  change (String ":" (String " " msg)) with (": " ++ msg).
  now rewrite (cut_level_app lvl msg Hl).
Qed.

(** X5. A call of [log_message] in an undisturbed run prints one text on
    stdout that reads back as the time of the call, the level (INFO when
    none is given) and the message, whatever the message holds, for every
    level that holds no colon followed by a space. *)
Theorem log_message_reads_back (w : world) (s : counters)
    (message : string) (lvl : option string) :
  fault w = None -> clock_valid w ->
  contains ": " (level_or_default lvl) = false ->
  map parse_log (printed Stdout (trace (exec w (ExampleTask.log_message message lvl) s)))
  = [Some (mk_log_line (strftime (clock w (n_now s))) (level_or_default lvl) message)]
  /\ printed Stderr (trace (exec w (ExampleTask.log_message message lvl) s)) = [].
Proof.
  intros Hf Hc Hl. rewrite <- (calm_id w Hf).
  rewrite (exec_log_message_calm w message lvl s). cbn [trace fst printed flat_map
    stream_eqb app map].
  split; [| reflexivity].
  now rewrite (parse_log_text_any _ _ message (Hc (n_now s)) Hl).
Qed.

Lemma log_message_reads_back_witness :
  fault calm_world = None /\ clock_valid calm_world
  /\ contains ": " (level_or_default (Some "DEBUG")) = false
  /\ map parse_log
       (printed Stdout
          (trace (exec calm_world
                    (ExampleTask.log_message "cache: 3 hits" (Some "DEBUG")) start)))
     = [Some (mk_log_line "2025-03-09 14:07:05" "DEBUG" "cache: 3 hits")].
Proof.
  split; [reflexivity |]. split; [exact (sample_clock_valid None) |].
  split; [reflexivity |].
  exact (proj1 (log_message_reads_back calm_world start "cache: 3 hits" (Some "DEBUG")
                  eq_refl (sample_clock_valid None) eq_refl)).
Defined.

(** A level that holds a colon and a space is cut in two when the line is
    read back. *)
Remark level_with_colon_misread :
  map parse_log
    (printed Stdout
       (trace (exec calm_world (ExampleTask.log_message "done" (Some "NOTE: x")) start)))
  = [Some (mk_log_line "2025-03-09 14:07:05" "NOTE" "x: done")].
Proof. vm_compute. reflexivity. Qed.

Lemma string_length_app (a b : string) :
  String.length (a ++ b) = (String.length a + String.length b)%nat.
Proof. induction a as [| c a IH]; cbn; [reflexivity | now rewrite IH]. Qed.

Lemma cut_char_app (c : ascii) (code rest : string) :
  contains (String c "") code = false ->
  cut_char c (code ++ String c rest) = Some (code, rest).
Proof.
  induction code as [| a code IH]; intro H; cbn [append cut_char].
  - now rewrite Ascii.eqb_refl.
  - cbn [contains starts_with] in H. apply orb_false_iff in H as [Ha Hrest].
    rewrite andb_true_r in Ha. rewrite Ascii.eqb_sym, Ha.
    now rewrite (IH Hrest).
Qed.

Lemma ends_with_app (text suffix : string) : ends_with suffix (text ++ suffix) = true.
Proof.
  unfold ends_with. rewrite string_length_app, Nat.add_sub.
  rewrite (drop_app _ text suffix eq_refl). apply String.eqb_refl.
Qed.

(** X6. [print_colored] prints one text on stdout from which the color
    parameter and the text come back unchanged, whatever the text holds
    (nothing, or escape sequences of its own), for every parameter that
    holds no [m]. *)
Theorem print_colored_reads_back (w : world) (s : counters) (text color_code : string) :
  fault w = None ->
  contains "m" color_code = false ->
  map read_colored
    (printed Stdout (trace (exec w (TestColors.print_colored text color_code) s)))
  = [Some (color_code, text)]
  /\ printed Stderr (trace (exec w (TestColors.print_colored text color_code) s)) = [].
Proof.
  intros Hf Hm. rewrite <- (calm_id w Hf).
  cbn [TestColors.print_colored print exec strikes calm fault perform trace fst
       printed flat_map stream_eqb app map].
  split; [| reflexivity].
  unfold read_colored. cbn [ESC append starts_with Ascii.eqb Bool.eqb andb drop].
  change (String "m" (text ++ String "027" "[0m"))
    with (String "m" (text ++ (ESC ++ "[0m"))).
  rewrite (cut_char_app "m" color_code _ Hm).
  change (String "027" "[0m") with (ESC ++ "[0m").
  rewrite ends_with_app.
  rewrite string_length_app. change (String.length (ESC ++ "[0m")) with 4%nat.
  rewrite Nat.add_sub.
  now rewrite (take_app _ text _ eq_refl).
Qed.

Lemma print_colored_reads_back_witness :
  fault calm_world = None /\ contains "m" "1;31" = false
  /\ map read_colored
       (printed Stdout
          (trace (exec calm_world (TestColors.print_colored "" "1;31") start)))
     = [Some ("1;31", "")].
Proof.
  split; [reflexivity |]. split; [reflexivity |].
  exact (proj1 (print_colored_reads_back calm_world start "" "1;31" eq_refl eq_refl)).
Defined.

(* ================================================================= *)
(** * How much one task prints, and when the task simulator sleeps *)

Lemma printed_stdout_journal (t : list event) :
  List.length (printed Stdout t) = List.length (filter is_output (journal t)).
Proof.
  induction t as [| ev t IH]; [reflexivity |].
  change (ev :: t) with ([ev] ++ t)%list.
  rewrite printed_app, journal_app, filter_app, !length_app, IH. f_equal.
  destruct ev as [[|] text | f | d]; cbn; try reflexivity.
  now destruct (parse_log text).
Qed.

Section TaskVolume.

Variable w : world.
Hypothesis clock_ok : clock_valid w.

Lemma simulate_work_warning_messages (duration : Z) (task_name : string) (s : counters) :
  messages_at "WARNING"
    (trace (exec (calm w) (ExampleTask.simulate_work duration task_name) s))
  = flat_map (fun k => warning_of task_name k (draws w (k + n_random s))) (seq 0 10).
Proof.
  unfold messages_at. rewrite (simulate_work_journal w clock_ok duration task_name s).
  cbn [flat_map String.eqb Ascii.eqb Bool.eqb app].
  rewrite flat_map_app, flat_map_flat_map.
  cbn [flat_map String.eqb Ascii.eqb Bool.eqb app]. rewrite app_nil_r.
  apply flat_map_ext. intro k.
  unfold warning_line, warning_of.
  destruct (PrimFloat.ltb (draws w (k + n_random s)) 0.1); reflexivity.
Qed.

Lemma simulate_work_output_count (duration : Z) (task_name : string) (s : counters) :
  List.length (filter is_output
                 (journal (trace (exec (calm w)
                                    (ExampleTask.simulate_work duration task_name) s))))
  = (13 + List.length
            (flat_map (fun k => warning_of task_name k (draws w (k + n_random s)))
               (seq 0 10)))%nat.
Proof.
  rewrite (simulate_work_journal w clock_ok duration task_name s).
  cbn [filter is_output]. rewrite filter_app. cbn [filter is_output].
  cbn [List.length]. rewrite length_app. cbn [List.length].
  assert (Hloop : forall ks,
    List.length
      (filter is_output
         (flat_map (fun k =>
            [Line "INFO" (task_name ++ " progress: " ++ nth k percents "" ++ "%");
             Pause (true_div duration 10)]
            ++ warning_line task_name k (draws w (k + n_random s)))%list ks))
    = (List.length ks
       + List.length
           (flat_map (fun k => warning_of task_name k (draws w (k + n_random s))) ks))%nat).
  { induction ks as [| k ks IH]; [reflexivity |].
    cbn [flat_map]. rewrite filter_app, !length_app, IH.
    unfold warning_line, warning_of.
    destruct (PrimFloat.ltb (draws w (k + n_random s)) 0.1); cbn; lia. }
  rewrite Hloop, length_seq. lia.
Qed.

Lemma warnings_at_most (task_name : string) (f : nat -> float) (ks : list nat) :
  (List.length (flat_map (fun k => warning_of task_name k (f k)) ks)
   <= List.length ks)%nat.
Proof.
  induction ks as [| k ks IH]; [apply Nat.le_refl |].
  cbn [flat_map]. rewrite length_app. unfold warning_of at 1.
  destruct (PrimFloat.ltb (f k) 0.1); cbn; lia.
Qed.

End TaskVolume.

(** X8. In an undisturbed run the task simulator sleeps ten times a tenth
    of the duration in each task and half a second after each task, the
    last task too: 33 sleeps, the last of which is the half second before
    the closing lines. *)
Theorem main_sleeps (h : host) (w : world) :
  fault w = None -> clock_valid w ->
  let t := trace (ExampleTask.main h w) in
  sleeps t
  = flat_map (fun '(_, duration) =>
                (repeat (true_div duration 10) 10 ++ [0.5%float])%list)
      ExampleTask.tasks
  /\ List.length (sleeps t) = 33%nat
  /\ last (sleeps t) 0%float = 0.5%float.
Proof.
  intros Hf Hc t. subst t. rewrite <- (calm_id w Hf), (main_calm w Hc h).
  rewrite sleeps_skeleton.
  rewrite (proj2 (main_try_calm w Hc h)).
  repeat split.
Qed.

Lemma main_sleeps_witness :
  fault calm_world = None /\ clock_valid calm_world
  /\ List.length (sleeps (trace (ExampleTask.main sample_host calm_world))) = 33%nat.
Proof.
  split; [reflexivity |]. split; [exact (sample_clock_valid None) |].
  exact (proj1 (proj2 (main_sleeps sample_host calm_world eq_refl
                         (sample_clock_valid None)))).
Defined.

(* ================================================================= *)
(** * Schedules of faults, and worlds with one fault *)

Section Schedules.

Variable fs : nat -> option exn.
Variable w : world.

(** A world with one fault is the schedule that holds that fault. *)
Lemma exec_under_schedule_of {A : Type} (p : prog A) (s : counters) :
  exec_under (schedule_of w) w p s = exec w p s.
Proof.
  revert s; induction p as [a | c k IH]; intro s; cbn [exec_under exec].
  - reflexivity.
  - change (schedule_of w (n_calls s)) with (strikes w s).
    destruct (strikes w s); [reflexivity |].
    destruct (perform w c s) as [r [evs s1]]. now rewrite IH.
Qed.



(** [log_message] under a schedule: its three calls are the clock
    reading, the [print] and the flush; the first of them that is struck
    ends it, and only a fault at the flush leaves the line written. *)
Lemma exec_under_log_message (msg : string) (lvl : option string) (s : counters) :
  match first_struck fs (n_calls s) 3 with
  | None =>
      exec_under fs w (ExampleTask.log_message msg lvl) s
      = ([Wrote Stdout (log_text (clock w (n_now s)) (level_or_default lvl) msg);
          Flushed Stdout],
         mk_counters (3 + n_calls s) (S (n_now s)) (n_random s),
         inr tt)
  | Some (i, e) =>
      trace (exec_under fs w (ExampleTask.log_message msg lvl) s)
      = (if Nat.eqb i 2
         then [Wrote Stdout (log_text (clock w (n_now s)) (level_or_default lvl) msg)]
         else [])
      /\ result (exec_under fs w (ExampleTask.log_message msg lvl) s) = inl e
  end.
Proof.
  unfold ExampleTask.log_message.
  cbn [bind datetime_now print flush exec_under first_struck].
  destruct (fs (n_calls s)); [split; reflexivity |].
  cbn [perform n_calls]. destruct (fs (S (n_calls s))); [split; reflexivity |].
  cbn [perform called n_calls]. destruct (fs (S (S (n_calls s)))); [split; reflexivity |].
  reflexivity.
Qed.

End Schedules.

Lemma main_schedule_of (h : host) (w : world) :
  Disturbed.main h (schedule_of w) w = ExampleTask.main h w.
Proof.
  unfold Disturbed.main, ExampleTask.main, try_except.
  rewrite exec_under_schedule_of.
  destruct (exec w (ExampleTask.main_try h) start) as [[t s1] [e | a]]; [| reflexivity].
  now rewrite exec_under_schedule_of.
Qed.

(* ================================================================= *)
(** * Texts and console lines *)

Lemma string_app_nil_r (s : string) : s ++ "" = s.
Proof. induction s as [| c s IH]; cbn; [reflexivity | now rewrite IH]. Qed.

Lemma string_app_assoc (a b c : string) : (a ++ b) ++ c = a ++ b ++ c.
Proof. induction a as [| x a IH]; cbn; [reflexivity | now rewrite IH]. Qed.

Lemma lf_free_app (a b : string) : lf_free (a ++ b) = lf_free a && lf_free b.
Proof.
  induction a as [| c a IH]; cbn; [reflexivity |].
  now rewrite IH, andb_assoc.
Qed.

Lemma lf_free_uint (d : Decimal.uint) : lf_free (NilEmpty.string_of_uint d) = true.
Proof. induction d; cbn; auto. Qed.

Lemma lf_free_str_int (n : Z) : lf_free (str_int n) = true.
Proof.
  unfold str_int, NilZero.string_of_int, NilZero.string_of_uint.
  destruct (Z.to_int n) as [d | d]; destruct d; cbn; auto using lf_free_uint.
Qed.

Lemma lf_free_zfill (width : nat) (s : string) :
  lf_free s = true -> lf_free (zfill width s) = true.
Proof.
  intro Hs. unfold zfill. rewrite lf_free_app, Hs, andb_true_r.
  induction (width - String.length s)%nat as [| k IH]; [reflexivity |].
  cbn [repeat]. destruct k as [| k]; [reflexivity |].
  change (String.concat "" ("0" :: repeat "0" (S k)))
    with ("0" ++ "" ++ String.concat "" (repeat "0" (S k))).
  cbn [append lf_free]. exact IH.
Qed.

Lemma lf_free_strftime (d : datetime) : lf_free (strftime d) = true.
Proof.
  unfold strftime.
  repeat (rewrite lf_free_app; apply andb_true_iff; split);
    try reflexivity; apply lf_free_zfill, lf_free_str_int.
Qed.

Lemma lf_free_format_f1 (x : float) : lf_free (format_f1 x) = true.
Proof.
  unfold format_f1. destruct (Prim2SF x) as [s | s | | s m e].
  - now destruct s.
  - now destruct s.
  - reflexivity.
  - cbv zeta. rewrite !lf_free_app, !lf_free_str_int. now destruct s.
Qed.

Lemma lf_free_log_text (d : datetime) (lvl msg : string) :
  lf_free lvl = true -> lf_free msg = true -> lf_free (log_text d lvl msg) = true.
Proof.
  intros Hl Hm. unfold log_text.
  rewrite !lf_free_app, lf_free_strftime, Hl, Hm. reflexivity.
Qed.

(** A text with no line feed, printed, is one line of the console. *)
Lemma lines_from_lf_free (text cur rest : string) :
  lf_free text = true ->
  lines_from cur (text ++ LF ++ rest) = (cur ++ text) :: lines_from "" rest.
Proof.
  revert cur; induction text as [| c text IH]; intros cur H.
  - now rewrite string_app_nil_r.
  - cbn [lf_free] in H. apply andb_true_iff in H as [Hc H].
    cbn [append lines_from]. apply negb_true_iff in Hc. rewrite Hc.
    rewrite (IH _ H), string_app_assoc. reflexivity.
Qed.


Lemma concat_cons (x : string) (xs : list string) :
  String.concat "" (x :: xs) = x ++ String.concat "" xs.
Proof. destruct xs; cbn; [now rewrite string_app_nil_r | reflexivity]. Qed.

Lemma lines_of_texts (texts : list string) :
  forallb lf_free texts = true ->
  lines (String.concat "" (map (fun text => text ++ LF) texts)) = texts.
Proof.
  unfold lines. induction texts as [| x xs IH]; intro H; [reflexivity |].
  cbn [forallb] in H. apply andb_true_iff in H as [Hx Hxs].
  cbn [map]. rewrite concat_cons, string_app_assoc.
  rewrite (lines_from_lf_free x "" _ Hx). cbn [append]. now rewrite (IH Hxs).
Qed.



Lemma printed_one_line (t : list event) :
  Forall (event_ok one_line) t -> forallb lf_free (printed Stdout t) = true.
Proof.
  induction 1 as [| ev t Hev _ IH]; [reflexivity |].
  destruct ev as [[|] text | f | d]; cbn; auto.
  unfold one_line in Hev. cbn in Hev. now rewrite Hev.
Qed.

Lemma one_line_log_message (msg : string) (lvl : option string) :
  lf_free msg = true -> lf_free (level_or_default lvl) = true ->
  prints_all one_line (ExampleTask.log_message msg lvl).
Proof.
  intros Hm Hl. unfold ExampleTask.log_message.
  cbn [bind datetime_now print flush prints_all].
  split; [exact I |]. intros d _.
  split.
  - change (lf_free (log_text d (level_or_default lvl) msg) = true).
    exact (lf_free_log_text d (level_or_default lvl) msg Hl Hm).
  - intros _ _. split; [exact I |]. intros _ _. exact I.
Qed.

Lemma prints_all_time_sleep (R : stream -> string -> Prop) (secs : float) :
  prints_all R (time_sleep secs).
Proof. split; [exact I |]. intros r _. exact I. Qed.

Lemma prints_all_random (R : stream -> string -> Prop) : prints_all R random_random.
Proof. split; [exact I |]. intros r _. exact I. Qed.


Lemma one_line_simulate_work (duration : Z) (task_name : string) :
  lf_free task_name = true ->
  prints_all one_line (ExampleTask.simulate_work duration task_name).
Proof.
  intro Hn. unfold ExampleTask.simulate_work.
  apply prints_all_bind;
    [apply one_line_log_message; [now rewrite lf_free_app, Hn | reflexivity] |].
  intros _.
  apply prints_all_bind;
    [| intros _; apply one_line_log_message; [now rewrite lf_free_app, Hn | reflexivity]].
  apply prints_all_for_each. intro i.
  apply prints_all_bind.
  { apply one_line_log_message; [| reflexivity].
    now rewrite !lf_free_app, Hn, lf_free_format_f1. }
  intros _. destruct (i <? 10); [| exact I]. cbn [when].
  apply prints_all_bind; [apply prints_all_time_sleep |]. intros _.
  apply prints_all_bind; [apply prints_all_random |]. intro r.
  destruct (PrimFloat.ltb r 0.1); [| exact I]. cbn [when].
  apply one_line_log_message; [| reflexivity].
  now rewrite !lf_free_app, Hn, lf_free_str_int.
Qed.


(* ================================================================= *)
(** * The task simulator under any number of faults *)

Section DisturbedRuns.

Variable h : host.
Variable fs : nat -> option exn.
Variable w : world.
Hypothesis clock_ok : clock_valid w.





End DisturbedRuns.


(** The same with an error that lasts: a standard output that is full
    fails the flush of the handler too, and the run ends by the exception
    after two lines that no flush follows. *)
Example full_stdout_escapes :
  Disturbed.script sample_host stdout_full calm_world
  = ([Wrote Stdout (log_text (sample_clock 0) "INFO" "Python example script starting");
      Flushed Stdout;
      Wrote Stdout (log_text (sample_clock 1) "INFO"
                      ("Python version: " ++ sys_version sample_host));
      Wrote Stdout (log_text (sample_clock 2) "ERROR"
                      "Unexpected error: [Errno 28] No space left on device")],
     Uncaught (Exception "[Errno 28] No space left on device")).
Proof. vm_compute. reflexivity. Qed.



(* ================================================================= *)
(** * The logging discipline under any number of faults *)










(* ================================================================= *)
(** * The exit code and the last line of the console *)



(** The text of an exception that holds a line feed ends on a line of its
    own, from which no exit code reads. *)
Remark exception_text_spans_lines :
  result (Disturbed.main sample_host traceback_at_flush calm_world) = inr 1
  /\ exit_code_of_log (trace (Disturbed.main sample_host traceback_at_flush calm_world))
     = None.
Proof. split; vm_compute; reflexivity. Qed.

(** X7. For a task name that holds no line feed and a duration from 0 to
    a million seconds, an undisturbed [simulate_work] leaves on the
    console of stdout the texts it prints, one line each: thirteen lines
    and one more for each warning, so between 13 and 23 lines; nothing
    goes to stderr, and each line is followed at once by a flush of
    stdout. *)
Theorem simulate_work_line_count (w : world) (s : counters)
    (duration : Z) (task_name : string) :
  fault w = None -> clock_valid w ->
  lf_free task_name = true -> 0 <= duration <= 1000000 ->
  let t := trace (exec w (ExampleTask.simulate_work duration task_name) s) in
  lines (bytes_of Stdout t) = printed Stdout t
  /\ List.length (lines (bytes_of Stdout t))
     = (13 + List.length (messages_at "WARNING" t))%nat
  /\ (List.length (messages_at "WARNING" t) <= 10)%nat
  /\ printed Stderr t = []
  /\ flushed_at_once None t = true.
Proof.
  intros Hf Hc Hname _ t. subst t.
  pose proof (prints_all_exec w Hc (logged body_line)
                (ExampleTask.simulate_work duration task_name) s
                (prints_all_simulate_work duration task_name)) as Hlines.
  pose proof (prints_all_exec w Hc one_line
                (ExampleTask.simulate_work duration task_name) s
                (one_line_simulate_work duration task_name Hname)) as Hone.
  pose proof (tidy_exec w (ExampleTask.simulate_work duration task_name) s
                (tidy_simulate_work duration task_name)) as Htidy.
  destruct (exec_calm_returns w (ExampleTask.simulate_work duration task_name) s Hf)
    as [a Ha].
  rewrite Ha in Htidy.
  destruct (body_lines _ Hlines) as (_ & _ & Herr & _).
  assert (Hcon :
    lines (bytes_of Stdout
             (trace (exec w (ExampleTask.simulate_work duration task_name) s)))
    = printed Stdout (trace (exec w (ExampleTask.simulate_work duration task_name) s))).
  { unfold bytes_of. apply lines_of_texts. exact (printed_one_line _ Hone). }
  split; [exact Hcon |].
  split.
  { rewrite Hcon, printed_stdout_journal. rewrite <- (calm_id w Hf).
    rewrite (simulate_work_output_count w Hc duration task_name s).
    now rewrite (simulate_work_warning_messages w Hc duration task_name s). }
  split.
  { rewrite <- (calm_id w Hf).
    rewrite (simulate_work_warning_messages w Hc duration task_name s).
    apply (warnings_at_most task_name (fun k => draws w (k + n_random s)) (seq 0 10)). }
  split; [exact Herr | exact Htidy].
Qed.

Lemma simulate_work_line_count_witness :
  fault calm_world = None /\ clock_valid calm_world
  /\ lf_free "File Analysis" = true /\ 0 <= 2 <= 1000000
  /\ List.length
       (lines (bytes_of Stdout
                 (trace (exec calm_world
                           (ExampleTask.simulate_work 2 "File Analysis") start))))
     = 14%nat.
Proof.
  split; [reflexivity |]. split; [exact (sample_clock_valid None) |].
  split; [reflexivity |]. split; [lia |].
  pose proof (simulate_work_line_count calm_world start 2 "File Analysis" eq_refl
                (sample_clock_valid None) eq_refl ltac:(lia)) as H.
  destruct H as (_ & H & _). rewrite H. reflexivity.
Defined.

(** A task name that holds a line feed makes each of its lines two lines
    of the console. *)
Remark task_name_spans_lines :
  List.length
    (lines (bytes_of Stdout
              (trace (exec calm_world
                        (ExampleTask.simulate_work 2 ("File" ++ LF ++ "Analysis")) start))))
  = 28%nat
  /\ List.length
       (printed Stdout
          (trace (exec calm_world
                    (ExampleTask.simulate_work 2 ("File" ++ LF ++ "Analysis")) start)))
     = 14%nat.
Proof. split; vm_compute; reflexivity. Qed.
